(** * The markers table: filtering, projection and sorting of diagnostics

    A shallow embedding of
    [src/vs/workbench/contrib/markers/browser/markersTable.ts].

    The table controller turns a list of resource-marker groups and a filter
    specification into the rows of a virtual table.  Everything the file
    imports from elsewhere in the workbench (the severity enum, the URI
    schemes, the text-match utility, the label service, the table widget) is
    either a parameter of the development or a small record that keeps only
    what this file reads from it. *)

From Stdlib Require Import ZArith List String Bool Lia Sorted Permutation.
Import ListNotations.

Local Open Scope string_scope.
Local Open Scope list_scope.
Local Open Scope Z_scope.

(** ** JavaScript values the code relies on *)

(** Truthiness of a string: the empty string is falsy. *)
Definition truthy (s : string) : bool := negb (String.eqb s EmptyString).

(** Truthiness of an optional string ([undefined] is falsy as well). *)
Definition truthy_opt (s : option string) : bool :=
  match s with
  | Some s' => truthy s'
  | None => false
  end.

(** Truthiness of [T[] | undefined]: every array is truthy, the empty one
    included. *)
Definition defined {A : Type} (x : option A) : bool :=
  match x with
  | Some _ => true
  | None => false
  end.

(** [Array.prototype.splice(start, deleteCount, ...items)], with the clamping
    of both numbers that the language prescribes: a negative [start] counts
    from the end. [deleteCount = None] stands for [Number.POSITIVE_INFINITY]. *)
Definition Array_splice {A : Type} (l : list A) (start : Z)
    (deleteCount : option Z) (items : list A) : list A :=
  let len := Z.of_nat (List.length l) in
  let actualStart :=
    if start <? 0 then Z.max (len + start) 0 else Z.min start len in
  let actualDeleteCount :=
    match deleteCount with
    | Some dc => Z.min (Z.max dc 0) (len - actualStart)
    | None => len - actualStart
    end in
  firstn (Z.to_nat actualStart) l ++ items
    ++ skipn (Z.to_nat (actualStart + actualDeleteCount)) l.

Definition POSITIVE_INFINITY : option Z := None.

(** [Array.prototype.sort(comparefn)].  The language requires the sort to be
    stable; for a consistent comparator the result is then unique, and it is
    the one this insertion sort computes: an element moves past exactly the
    elements that compare strictly before it. *)
Fixpoint sort_insert {A : Type} (comparefn : A -> A -> Z) (x : A)
    (l : list A) : list A :=
  match l with
  | [] => [x]
  | y :: l' =>
      if comparefn x y <=? 0 then x :: y :: l'
      else y :: sort_insert comparefn x l'
  end.

Definition Array_sort {A : Type} (comparefn : A -> A -> Z) (l : list A)
  : list A :=
  fold_right (sort_insert comparefn) [] l.

(** Order of two elements by a numeric key. *)
Definition keyLe {A : Type} (key : A -> Z) (a b : A) : Prop :=
  key a <= key b.

(** ** Data model *)

Module URI.
Record t := {
  scheme : string;
  authority : string;
  path : string;
  query : string;
  fragment : string
}.
End URI.

(** A highlighted range of a label. *)
Record IMatch := { start : Z; end_ : Z }.

(** The [vs/base/common/network] constants the table reads. *)
Module network.
Record Schemas := {
  walkThrough : string;
  walkThroughSnippet : string
}.
End network.

(** The severity enum is numeric; the table reads three of its members and
    its comparator. *)
Module MarkerSeverity.
Definition t := Z.
Record statics := {
  Error : t;
  Warning : t;
  Info : t;
  compare : t -> t -> Z
}.
End MarkerSeverity.

(** [IMarker.code] is [string | { value: string; target: URI }]. *)
Inductive MarkerCode :=
| CodeString (s : string)
| CodeLink (value : string) (target : URI.t).

(** A value of that union is falsy only when it is the empty string. *)
Definition truthy_code (c : option MarkerCode) : bool :=
  match c with
  | Some (CodeString s) => truthy s
  | Some (CodeLink _ _) => true
  | None => false
  end.

Module IMarker.
Record t := {
  owner : string;
  resource : URI.t;
  severity : MarkerSeverity.t;
  code : option MarkerCode;
  message : string;
  source : option string;
  startLineNumber : Z;
  startColumn : Z
}.
End IMarker.

Module Marker.
Record t := {
  id : string;
  marker : IMarker.t;
  relatedInformation : list string
}.
(** The [resource] accessor of the class (declared with it in
    [markersModel]): the resource of the diagnostic it wraps. *)
Definition resource (m : t) : URI.t := IMarker.resource (marker m).
End Marker.

(** [class MarkerTableItem extends Marker]: the three fields of the wrapped
    marker and five optional span lists. *)
Module MarkerTableItem.
Record t := {
  id : string;
  marker : IMarker.t;
  relatedInformation : list string;
  sourceMatches : option (list IMatch);
  codeMatches : option (list IMatch);
  messageMatches : option (list IMatch);
  fileMatches : option (list IMatch);
  ownerMatches : option (list IMatch)
}.

(** The constructor; an omitted argument is [None]. *)
Definition new (m : Marker.t)
    (sourceMatches codeMatches messageMatches fileMatches ownerMatches
       : option (list IMatch)) : t :=
  {| id := Marker.id m;
     marker := Marker.marker m;
     relatedInformation := Marker.relatedInformation m;
     sourceMatches := sourceMatches;
     codeMatches := codeMatches;
     messageMatches := messageMatches;
     fileMatches := fileMatches;
     ownerMatches := ownerMatches |}.

(** The item seen as the [Marker] it extends. *)
Definition toMarker (i : t) : Marker.t :=
  {| Marker.id := id i;
     Marker.marker := marker i;
     Marker.relatedInformation := relatedInformation i |}.

Definition resource (i : t) : URI.t := IMarker.resource (marker i).
End MarkerTableItem.

(** A resource and its markers.  [oid] is the identity of the object, which
    is what [Array.prototype.indexOf] compares. *)
Module ResourceMarkers.
Record t := {
  oid : positive;
  id : string;
  resource : URI.t;
  markers : list Marker.t
}.
End ResourceMarkers.

Module FilterOptions.
Record ResourceGlobMatcher := { matches : URI.t -> bool }.
Record TextFilter := { text : option string; negate : bool }.
Record t := {
  showErrors : bool;
  showWarnings : bool;
  showInfos : bool;
  excludesMatcher : ResourceGlobMatcher;
  includesMatcher : ResourceGlobMatcher;
  textFilter : TextFilter
}.
(** The two static matchers: a span list, or [None] for no match. *)
Record statics := {
  _filter : string -> string -> option (list IMatch);
  _messageFilter : string -> string -> option (list IMatch)
}.
End FilterOptions.

Record ILabelService := {
  getUriLabel : URI.t -> string   (* called with [{ relative: true }] *)
}.

(** What the controller uses of the table widget: the rows it was handed,
    and the focus and selection (row indices) that the widget keeps. *)
Module WorkbenchTable.
Record t := {
  rows : list MarkerTableItem.t;
  focus : list nat;
  selection : list nat;
  ariaLabel : string
}.

(** Modelled from the spec: the table widget ([WorkbenchTable], from
    [vs/platform/list]) is not part of this file.  It is a virtual list
    "supporting windowed splice-based dataset replacement": [splice] replaces
    a range of the rows as the array operation of that name does.  What the
    widget does to its focus and selection on a splice is not described
    there; the model carries them along untouched, and what is proved of the
    rows, the dataset and the count does not depend on them. *)
Definition splice (start : Z) (deleteCount : option Z)
    (elements : list MarkerTableItem.t) (w : t) : t :=
  {| rows := Array_splice (rows w) start deleteCount elements;
     focus := focus w;
     selection := selection w;
     ariaLabel := ariaLabel w |}.

Definition row (w : t) (index : nat) : option MarkerTableItem.t :=
  nth_error (rows w) index.

Definition getFocus (w : t) : list nat := focus w.
Definition getSelection (w : t) : list nat := selection w.
End WorkbenchTable.

(** [Array.prototype.indexOf] on an array of objects: the first position that
    holds the very same object ([same] decides identity), or [-1]. *)
Fixpoint indexOf_from {A : Type} (same : A -> A -> bool) (l : list A)
    (searchElement : A) (k : Z) : Z :=
  match l with
  | [] => -1
  | y :: l' =>
      if same y searchElement then k
      else indexOf_from same l' searchElement (k + 1)
  end.

Definition Array_indexOf {A : Type} (same : A -> A -> bool) (l : list A)
    (searchElement : A) : Z :=
  indexOf_from same l searchElement 0.

(** [===] on two resource-marker groups. *)
Definition same_object (a b : ResourceMarkers.t) : bool :=
  Pos.eqb (ResourceMarkers.oid a) (ResourceMarkers.oid b).

(** ** The table controller *)

(** The fields of [class MarkersTable] that its operations read or write;
    [hidden] is the presence of the class of that name on the container. *)
Record MarkersTable := {
  hidden : bool;
  resourceMarkers : list ResourceMarkers.t;
  filterOptions : FilterOptions.t;
  _itemCount : nat;
  table : WorkbenchTable.t
}.

(** One call of [HighlightedLabel.set(text, highlights)] made by a column
    renderer, tagged with the label it was made on. *)
Inductive Label :=
| messageLabel | sourceLabel | codeLabel | codeLinkLabel
| fileLabel | positionLabel | highlightedLabel.

Record LabelSet := {
  label : Label;
  label_text : string;
  highlights : option (list IMatch)
}.

Section Controller.

(** The collaborators the file imports. *)
Variable Schemas : network.Schemas.
Variable Severity : MarkerSeverity.statics.
Variable Filters : FilterOptions.statics.
Variable labelService : ILabelService.
Variable MARKERS_PANEL_AT_LINE_COL_NUMBER : Z -> Z -> string.

(** The severity test of [reset]. *)
Definition matchesSeverity (fo : FilterOptions.t) (marker : Marker.t) : bool :=
  let severity := IMarker.severity (Marker.marker marker) in
  FilterOptions.showErrors fo
    && (MarkerSeverity.Error Severity =? severity)
  || FilterOptions.showWarnings fo
    && (MarkerSeverity.Warning Severity =? severity)
  || FilterOptions.showInfos fo
    && (MarkerSeverity.Info Severity =? severity).

(** The five span lists [reset] computes for a marker under the filter text
    [text]; [x ?? undefined] turns the no-match [null] into [undefined], and
    both are [None] here. *)
Definition sourceMatches (text : string) (marker : Marker.t)
  : option (list IMatch) :=
  match IMarker.source (Marker.marker marker) with
  | Some source =>
      if truthy source then FilterOptions._filter Filters text source
      else None
  | None => None
  end.

Definition codeMatches (text : string) (marker : Marker.t)
  : option (list IMatch) :=
  match IMarker.code (Marker.marker marker) with
  | Some (CodeString code) =>
      if truthy code then FilterOptions._filter Filters text code else None
  | Some (CodeLink value _) => FilterOptions._filter Filters text value
  | None => None
  end.

Definition messageMatches (text : string) (marker : Marker.t)
  : option (list IMatch) :=
  FilterOptions._messageFilter Filters text
    (IMarker.message (Marker.marker marker)).

Definition fileMatches (text : string) (marker : Marker.t)
  : option (list IMatch) :=
  FilterOptions._messageFilter Filters text
    (getUriLabel labelService (Marker.resource marker)).

Definition ownerMatches (text : string) (marker : Marker.t)
  : option (list IMatch) :=
  FilterOptions._messageFilter Filters text
    (IMarker.owner (Marker.marker marker)).

(** [sourceMatches || codeMatches || messageMatches || fileMatches ||
    ownerMatches], as the condition it is used for. *)
Definition matched (text : string) (marker : Marker.t) : bool :=
  defined (sourceMatches text marker)
  || defined (codeMatches text marker)
  || defined (messageMatches text marker)
  || defined (fileMatches text marker)
  || defined (ownerMatches text marker).

(** The body of the inner loop of [reset]: what one marker does to [items]. *)
Definition reset_marker (fo : FilterOptions.t)
    (items : list MarkerTableItem.t) (marker : Marker.t)
  : list MarkerTableItem.t :=
  let scheme := URI.scheme (Marker.resource marker) in
  if String.eqb scheme (network.walkThrough Schemas)
     || String.eqb scheme (network.walkThroughSnippet Schemas)
  then items
  else if FilterOptions.matches (FilterOptions.excludesMatcher fo)
            (Marker.resource marker)
  then items
  else if FilterOptions.matches (FilterOptions.includesMatcher fo)
            (Marker.resource marker)
  then items ++ [MarkerTableItem.new marker None None None None None]
  else if negb (matchesSeverity fo marker)
  then items
  else
    match FilterOptions.text (FilterOptions.textFilter fo) with
    | Some text =>
        if truthy text then
          let negate := FilterOptions.negate (FilterOptions.textFilter fo) in
          if matched text marker && negb negate
             || negb (matched text marker) && negate
          then items ++ [MarkerTableItem.new marker
                           (sourceMatches text marker)
                           (codeMatches text marker)
                           (messageMatches text marker)
                           (fileMatches text marker)
                           (ownerMatches text marker)]
          else items
        else items ++ [MarkerTableItem.new marker None None None None None]
    | None => items ++ [MarkerTableItem.new marker None None None None None]
    end.

(** The two nested loops of [reset], starting from [items = []]. *)
Definition reset_items (fo : FilterOptions.t)
    (groups : list ResourceMarkers.t) : list MarkerTableItem.t :=
  fold_left
    (fun items resourceMarker =>
       fold_left (reset_marker fo) (ResourceMarkers.markers resourceMarker)
         items)
    groups [].

(** The comparator handed to [items.sort]. *)
Definition bySeverity (a b : MarkerTableItem.t) : Z :=
  MarkerSeverity.compare Severity
    (IMarker.severity (MarkerTableItem.marker a))
    (IMarker.severity (MarkerTableItem.marker b)).

Definition reset (this : MarkersTable) (groups : list ResourceMarkers.t)
  : MarkersTable :=
  let items := reset_items (filterOptions this) groups in
  {| hidden := hidden this;
     resourceMarkers := groups;
     filterOptions := filterOptions this;
     _itemCount := List.length items;
     table := WorkbenchTable.splice 0 POSITIVE_INFINITY
                (Array_sort bySeverity items) (table this) |}.

Definition filterMarkers (this : MarkersTable)
    (groups : list ResourceMarkers.t) (fo : FilterOptions.t) : MarkersTable :=
  reset
    {| hidden := hidden this;
       resourceMarkers := resourceMarkers this;
       filterOptions := fo;
       _itemCount := _itemCount this;
       table := table this |}
    groups.

(** The loop of [update]: each group is looked up by identity and spliced in
    at the index found, whatever that index is. *)
Definition update_groups (stored groups : list ResourceMarkers.t)
  : list ResourceMarkers.t :=
  fold_left
    (fun stored resourceMarker =>
       let index := Array_indexOf same_object stored resourceMarker in
       Array_splice stored index (Some 1) [resourceMarker])
    groups stored.

Definition update (this : MarkersTable) (groups : list ResourceMarkers.t)
  : MarkersTable :=
  let stored := update_groups (resourceMarkers this) groups in
  reset
    {| hidden := hidden this;
       resourceMarkers := stored;
       filterOptions := filterOptions this;
       _itemCount := _itemCount this;
       table := table this |}
    stored.

Definition getFocus (this : MarkersTable) : list (option Marker.t) := [].

Definition getSelection (this : MarkersTable) : list nat :=
  WorkbenchTable.getSelection (table this).

Definition getVisibleItemCount (this : MarkersTable) : nat :=
  _itemCount this.

Definition isVisible (this : MarkersTable) : bool := negb (hidden this).

Definition toggleVisibility (this : MarkersTable) (hide : bool)
  : MarkersTable :=
  {| hidden := hide;
     resourceMarkers := resourceMarkers this;
     filterOptions := filterOptions this;
     _itemCount := _itemCount this;
     table := table this |}.

(** The markers of the rows on display, in display order. *)
Definition visibleMarkers (this : MarkersTable) : list Marker.t :=
  map MarkerTableItem.toMarker (WorkbenchTable.rows (table this)).

(** ** Column renderers: the label updates one [renderElement] makes *)

Definition MarkerMessageColumnRenderer_renderElement
    (element : MarkerTableItem.t) : list LabelSet :=
  let marker := MarkerTableItem.marker element in
  {| label := messageLabel;
     label_text := IMarker.message marker;
     highlights := MarkerTableItem.messageMatches element |}
  ::
  match IMarker.source marker, IMarker.code marker with
  | Some source, Some code =>
      if truthy source && truthy_code (Some code) then
        match code with
        | CodeString c =>
            [ {| label := sourceLabel; label_text := source;
                 highlights := MarkerTableItem.sourceMatches element |};
              {| label := codeLabel; label_text := c;
                 highlights := MarkerTableItem.codeMatches element |} ]
        | CodeLink value _ =>
            [ {| label := sourceLabel; label_text := source;
                 highlights := MarkerTableItem.sourceMatches element |};
              {| label := codeLinkLabel; label_text := value;
                 highlights := MarkerTableItem.codeMatches element |} ]
        end
      else []
  | _, _ => []
  end.

Definition MarkerFileColumnRenderer_renderElement
    (element : MarkerTableItem.t) : list LabelSet :=
  let marker := MarkerTableItem.marker element in
  [ {| label := fileLabel;
       label_text := getUriLabel labelService (IMarker.resource marker);
       highlights := MarkerTableItem.fileMatches element |};
    {| label := positionLabel;
       label_text :=
         MARKERS_PANEL_AT_LINE_COL_NUMBER (IMarker.startLineNumber marker)
           (IMarker.startColumn marker);
       highlights := None |} ].

Definition MarkerOwnerColumnRenderer_renderElement
    (element : MarkerTableItem.t) : list LabelSet :=
  [ {| label := highlightedLabel;
       label_text := IMarker.owner (MarkerTableItem.marker element);
       highlights := MarkerTableItem.ownerMatches element |} ].

(** All label updates made when the message, file and owner cells of a row
    are painted. *)
Definition renderRow (element : MarkerTableItem.t) : list LabelSet :=
  MarkerMessageColumnRenderer_renderElement element
  ++ MarkerFileColumnRenderer_renderElement element
  ++ MarkerOwnerColumnRenderer_renderElement element.

(** ** What the properties below are stated with *)

(** Every marker of the dataset, in encounter order. *)
Definition allMarkers (groups : list ResourceMarkers.t) : list Marker.t :=
  flat_map ResourceMarkers.markers groups.

(** The marker is in one of the two walkthrough schemes. *)
Definition inWalkThrough (marker : Marker.t) : Prop :=
  URI.scheme (Marker.resource marker) = network.walkThrough Schemas
  \/ URI.scheme (Marker.resource marker) = network.walkThroughSnippet Schemas.

Definition excluded (fo : FilterOptions.t) (marker : Marker.t) : bool :=
  FilterOptions.matches (FilterOptions.excludesMatcher fo)
    (Marker.resource marker).

Definition included (fo : FilterOptions.t) (marker : Marker.t) : bool :=
  FilterOptions.matches (FilterOptions.includesMatcher fo)
    (Marker.resource marker).

(** The severity of the marker is Error, Warning or Info, and the toggle of
    that severity is on. *)
Definition severityEnabled (fo : FilterOptions.t) (marker : Marker.t) : Prop :=
  (FilterOptions.showErrors fo = true
   /\ IMarker.severity (Marker.marker marker) = MarkerSeverity.Error Severity)
  \/ (FilterOptions.showWarnings fo = true
      /\ IMarker.severity (Marker.marker marker)
         = MarkerSeverity.Warning Severity)
  \/ (FilterOptions.showInfos fo = true
      /\ IMarker.severity (Marker.marker marker)
         = MarkerSeverity.Info Severity).

(** One of the five fields of the marker gives the span list [spans] for the
    filter text: the source or the code (a plain string, or the display
    value of a link) through [_filter], when the field is there and not
    empty, or the message, the file label or the owner through
    [_messageFilter]. *)
Definition fieldSpans (text : string) (marker : Marker.t)
    (spans : list IMatch) : Prop :=
  (exists source,
      IMarker.source (Marker.marker marker) = Some source
      /\ source <> EmptyString
      /\ FilterOptions._filter Filters text source = Some spans)
  \/ (exists code,
         IMarker.code (Marker.marker marker) = Some (CodeString code)
         /\ code <> EmptyString
         /\ FilterOptions._filter Filters text code = Some spans)
  \/ (exists value target,
         IMarker.code (Marker.marker marker) = Some (CodeLink value target)
         /\ FilterOptions._filter Filters text value = Some spans)
  \/ FilterOptions._messageFilter Filters text
       (IMarker.message (Marker.marker marker)) = Some spans
  \/ FilterOptions._messageFilter Filters text
       (getUriLabel labelService (IMarker.resource (Marker.marker marker)))
     = Some spans
  \/ FilterOptions._messageFilter Filters text
       (IMarker.owner (Marker.marker marker)) = Some spans.

(** At least one of the five fields matches the filter text. *)
Definition someFieldMatches (text : string) (marker : Marker.t) : Prop :=
  exists spans, fieldSpans text marker spans.

(** The negate rule: when a text filter is set, some field of the marker
    matches and the filter is not negated, or no field matches and the
    filter is negated. *)
Definition textFilterSatisfied (fo : FilterOptions.t) (marker : Marker.t)
  : Prop :=
  forall text,
    FilterOptions.text (FilterOptions.textFilter fo) = Some text ->
    text <> EmptyString ->
    (someFieldMatches text marker
     /\ FilterOptions.negate (FilterOptions.textFilter fo) = false)
    \/ (~ someFieldMatches text marker
        /\ FilterOptions.negate (FilterOptions.textFilter fo) = true).

(** What a visible row's marker has to satisfy. *)
Definition passesFilter (fo : FilterOptions.t) (marker : Marker.t) : Prop :=
  ~ inWalkThrough marker
  /\ excluded fo marker = false
  /\ (included fo marker = true
      \/ (severityEnabled fo marker /\ textFilterSatisfied fo marker)).

(** Modelled from the spec: the two static matchers of [FilterOptions] are
    declared in [markersFilterOptions], which is not part of this file.  The
    design has them as "a text/glob match utility returning match-span lists
    or a no-match signal", a match being a span list that is not empty: the
    matchers never answer with an empty span list. *)
Definition matcherContract : Prop :=
  (forall text word, FilterOptions._filter Filters text word <> Some [])
  /\ (forall text word,
         FilterOptions._messageFilter Filters text word <> Some []).

Definition severityOf (row : MarkerTableItem.t) : MarkerSeverity.t :=
  IMarker.severity (MarkerTableItem.marker row).

(** Modelled from the spec: [MarkerSeverity.compare] and the numbers behind
    the enum members are declared in [vs/platform/markers/common/markers],
    which is not part of this file.  The design sorts "by severity rank
    ascending (Error before Warning before Info, or whatever numeric ordering
    the severity enum defines)": the comparator orders two severities as
    their ranks are ordered, and the three ranks are in that order. *)
Definition comparesByRank (rank : MarkerSeverity.t -> Z) : Prop :=
  (forall a b, MarkerSeverity.compare Severity a b <= 0 <-> rank a <= rank b)
  /\ rank (MarkerSeverity.Error Severity)
       < rank (MarkerSeverity.Warning Severity)
       < rank (MarkerSeverity.Info Severity).

(** A row without highlights. *)
Definition noSpans (row : MarkerTableItem.t) : Prop :=
  MarkerTableItem.sourceMatches row = None
  /\ MarkerTableItem.codeMatches row = None
  /\ MarkerTableItem.messageMatches row = None
  /\ MarkerTableItem.fileMatches row = None
  /\ MarkerTableItem.ownerMatches row = None.

(** A span list that is there and has at least one span. *)
Definition nonEmptySpans (x : option (list IMatch)) : bool :=
  match x with
  | Some (_ :: _) => true
  | _ => false
  end.

(** The reading of "matched" that asks for a non-empty span list in one of
    the five fields. *)
Definition matched_nonEmpty (text : string) (marker : Marker.t) : bool :=
  nonEmptySpans (sourceMatches text marker)
  || nonEmptySpans (codeMatches text marker)
  || nonEmptySpans (messageMatches text marker)
  || nonEmptySpans (fileMatches text marker)
  || nonEmptySpans (ownerMatches text marker).

(** The reading of [getFocus] as a passthrough: the rows at the indices the
    table widget reports as focused. *)
Definition getFocus_passthrough (this : MarkersTable)
  : list (option Marker.t) :=
  map (fun index =>
         option_map MarkerTableItem.toMarker
           (WorkbenchTable.row (table this) index))
      (WorkbenchTable.getFocus (table this)).

(** [reset] makes a row of the marker. *)
Definition shows (fo : FilterOptions.t) (marker : Marker.t) : bool :=
  match reset_marker fo [] marker with
  | [] => false
  | _ :: _ => true
  end.

(** The second filter differs from the first at most in severity toggles
    that it has on and the first has off. *)
Definition widensSeverities (fo fo' : FilterOptions.t) : Prop :=
  (FilterOptions.showErrors fo = true -> FilterOptions.showErrors fo' = true)
  /\ (FilterOptions.showWarnings fo = true ->
      FilterOptions.showWarnings fo' = true)
  /\ (FilterOptions.showInfos fo = true -> FilterOptions.showInfos fo' = true)
  /\ FilterOptions.excludesMatcher fo' = FilterOptions.excludesMatcher fo
  /\ FilterOptions.includesMatcher fo' = FilterOptions.includesMatcher fo
  /\ FilterOptions.textFilter fo' = FilterOptions.textFilter fo.

(** The highlights of a label update, when it has any, are what the matcher
    of that field answers for the filter text on the very text the label
    shows. *)
Definition highlightsComputedOn (text : string) (u : LabelSet) : Prop :=
  match highlights u with
  | None => True
  | Some spans =>
      match label u with
      | sourceLabel | codeLabel | codeLinkLabel =>
          FilterOptions._filter Filters text (label_text u) = Some spans
      | messageLabel | fileLabel | highlightedLabel =>
          FilterOptions._messageFilter Filters text (label_text u)
          = Some spans
      | positionLabel => False
      end
  end.

(** ** A concrete workbench to evaluate the controller in *)

Definition demoSchemas : network.Schemas :=
  {| network.walkThrough := "walkThrough";
     network.walkThroughSnippet := "walkThroughSnippet" |}.

(** Errors sort first: the comparator is a descending difference. *)
Definition demoSeverity : MarkerSeverity.statics :=
  {| MarkerSeverity.Error := 8;
     MarkerSeverity.Warning := 4;
     MarkerSeverity.Info := 2;
     MarkerSeverity.compare := fun a b => b - a |}.

Definition demoRank (severity : MarkerSeverity.t) : Z := - severity.

(** A matcher that reports the first occurrence of the text as one span. *)
Definition substringMatch (text word : string) : option (list IMatch) :=
  match String.index 0 text word with
  | Some i =>
      Some [ {| start := Z.of_nat i;
                end_ := Z.of_nat (i + String.length text) |} ]
  | None => None
  end.

Definition demoFilters : FilterOptions.statics :=
  {| FilterOptions._filter := substringMatch;
     FilterOptions._messageFilter := substringMatch |}.

Definition demoLabelService : ILabelService :=
  {| getUriLabel := URI.path |}.

Definition demoPosition (line column : Z) : string := "[Ln, Col]".

Definition fileUri (p : string) : URI.t :=
  {| URI.scheme := "file"; URI.authority := EmptyString; URI.path := p;
     URI.query := EmptyString; URI.fragment := EmptyString |}.

Definition mkMarker (id : string) (uri : URI.t) (severity : Z)
    (message : string) : Marker.t :=
  {| Marker.id := id;
     Marker.marker :=
       {| IMarker.owner := "typescript";
          IMarker.resource := uri;
          IMarker.severity := severity;
          IMarker.code := Some (CodeString "1005");
          IMarker.message := message;
          IMarker.source := Some "ts";
          IMarker.startLineNumber := 1;
          IMarker.startColumn := 1 |};
     Marker.relatedInformation := [] |}.

Definition markerA1 := mkMarker "a1" (fileUri "/src/a.ts") 4 "unused var".
Definition markerA2 := mkMarker "a2" (fileUri "/src/a.ts") 8 "missing foo".
Definition markerB1 := mkMarker "b1" (fileUri "/src/b.ts") 8 "missing bar".
Definition markerC1 := mkMarker "c1" (fileUri "/src/c.ts") 2 "consider baz".

Definition groupA : ResourceMarkers.t :=
  {| ResourceMarkers.oid := 1; ResourceMarkers.id := "/src/a.ts";
     ResourceMarkers.resource := fileUri "/src/a.ts";
     ResourceMarkers.markers := [markerA1; markerA2] |}.

Definition groupB : ResourceMarkers.t :=
  {| ResourceMarkers.oid := 2; ResourceMarkers.id := "/src/b.ts";
     ResourceMarkers.resource := fileUri "/src/b.ts";
     ResourceMarkers.markers := [markerB1] |}.

Definition groupC : ResourceMarkers.t :=
  {| ResourceMarkers.oid := 3; ResourceMarkers.id := "/src/c.ts";
     ResourceMarkers.resource := fileUri "/src/c.ts";
     ResourceMarkers.markers := [markerC1] |}.

Definition matchNone : FilterOptions.ResourceGlobMatcher :=
  {| FilterOptions.matches := fun _ => false |}.

Definition matchAll : FilterOptions.ResourceGlobMatcher :=
  {| FilterOptions.matches := fun _ => true |}.

Definition mkFilter (errors warnings infos : bool)
    (excludes includes : FilterOptions.ResourceGlobMatcher)
    (text : option string) (negate : bool) : FilterOptions.t :=
  {| FilterOptions.showErrors := errors;
     FilterOptions.showWarnings := warnings;
     FilterOptions.showInfos := infos;
     FilterOptions.excludesMatcher := excludes;
     FilterOptions.includesMatcher := includes;
     FilterOptions.textFilter :=
       {| FilterOptions.text := text; FilterOptions.negate := negate |} |}.

Definition showAll : FilterOptions.t :=
  mkFilter true true true matchNone matchNone None false.

(** A table that shows nothing yet. *)
Definition emptyTable (fo : FilterOptions.t) : MarkersTable :=
  {| hidden := false;
     resourceMarkers := [];
     filterOptions := fo;
     _itemCount := 0;
     table := {| WorkbenchTable.rows := [];
                 WorkbenchTable.focus := [];
                 WorkbenchTable.selection := [];
                 WorkbenchTable.ariaLabel := EmptyString |} |}.

(** A table with one row, which the widget reports as focused and selected. *)
Definition focusedTable : MarkersTable :=
  {| hidden := false;
     resourceMarkers := [groupB];
     filterOptions := showAll;
     _itemCount := 1;
     table := {| WorkbenchTable.rows :=
                   [MarkerTableItem.new markerB1 None None None None None];
                 WorkbenchTable.focus := [0%nat];
                 WorkbenchTable.selection := [0%nat];
                 WorkbenchTable.ariaLabel := EmptyString |} |}.

(** ** Facts about the array operations *)

Section ArrayFacts.

Context {A : Type}.

(** Replacing everything from index 0 leaves exactly the new elements. *)
Lemma Array_splice_all (l items : list A) :
  Array_splice l 0 POSITIVE_INFINITY items = items.
Proof.
  unfold Array_splice, POSITIVE_INFINITY.
  assert (Hlen : 0 <= Z.of_nat (List.length l)) by lia.
  replace (0 <? 0) with false by reflexivity.
  rewrite Z.min_l by exact Hlen.
  replace (Z.to_nat 0) with 0%nat by reflexivity.
  replace (Z.to_nat (0 + (Z.of_nat (List.length l) - 0)))
    with (List.length l) by lia.
  rewrite skipn_all, app_nil_r.
  reflexivity.
Qed.

(** A lookup that fails makes [splice(-1, 1, x)] overwrite the last slot. *)
Lemma Array_splice_minus_one (l : list A) (x : A) :
  Array_splice l (-1) (Some 1) [x] = removelast l ++ [x].
Proof.
  unfold Array_splice.
  replace (-1 <? 0) with true by reflexivity.
  destruct l as [|a l] using rev_ind.
  - reflexivity.
  - clear IHl.
    rewrite removelast_last, length_app.
    cbn [List.length].
    replace (Z.max (Z.of_nat (List.length l + 1) + -1) 0)
      with (Z.of_nat (List.length l)) by lia.
    replace (Z.min (Z.max 1 0) _) with 1 by lia.
    rewrite Nat2Z.id.
    replace (Z.to_nat (Z.of_nat (List.length l) + 1))
      with (List.length (l ++ [a])) by (rewrite length_app; cbn; lia).
    rewrite skipn_all, app_nil_r.
    rewrite firstn_app, firstn_all, Nat.sub_diag.
    cbn [firstn].
    rewrite app_nil_r.
    reflexivity.
Qed.

Variable comparefn : A -> A -> Z.

Lemma sort_insert_perm (x : A) (l : list A) :
  Permutation (sort_insert comparefn x l) (x :: l).
Proof.
  induction l as [|y l IH]; cbn.
  - apply Permutation_refl.
  - destruct (comparefn x y <=? 0).
    + apply Permutation_refl.
    + apply perm_trans with (y :: x :: l).
      * apply perm_skip, IH.
      * apply perm_swap.
Qed.

Lemma Array_sort_perm (l : list A) : Permutation (Array_sort comparefn l) l.
Proof.
  induction l as [|x l IH]; cbn.
  - apply perm_nil.
  - apply perm_trans with (x :: Array_sort comparefn l).
    + apply sort_insert_perm.
    + apply perm_skip, IH.
Qed.

Lemma Array_sort_In (l : list A) (x : A) :
  In x (Array_sort comparefn l) <-> In x l.
Proof.
  split; apply Permutation_in.
  - apply Array_sort_perm.
  - apply Permutation_sym, Array_sort_perm.
Qed.

Lemma Array_sort_length (l : list A) :
  List.length (Array_sort comparefn l) = List.length l.
Proof. apply Permutation_length, Array_sort_perm. Qed.

(** The comparator orders by a numeric key. *)
Variable key : A -> Z.
Hypothesis comparefn_key :
  forall a b, comparefn a b <= 0 <-> key a <= key b.

Lemma sort_insert_sorted (x : A) (l : list A) :
  StronglySorted (keyLe key) l -> StronglySorted (keyLe key) (sort_insert comparefn x l).
Proof.
  induction 1 as [|y l Hs IH Hy]; cbn.
  - constructor; constructor.
  - destruct (Z.leb_spec (comparefn x y) 0) as [Hle|Hgt].
    + apply comparefn_key in Hle.
      constructor.
      * constructor; assumption.
      * constructor; [exact Hle|].
        eapply Forall_impl; [|exact Hy].
        unfold keyLe; intros z Hz; lia.
    + assert (Hyx : key y <= key x).
      { destruct (Z.le_gt_cases (key x) (key y)) as [H|H]; [|lia].
        apply comparefn_key in H. lia. }
      constructor; [exact IH|].
      apply Forall_forall. intros z Hz.
      apply (Permutation_in _ (sort_insert_perm x l)) in Hz.
      destruct Hz as [<-|Hz]; [exact Hyx|].
      rewrite Forall_forall in Hy. apply Hy, Hz.
Qed.

Lemma Array_sort_sorted (l : list A) :
  StronglySorted (keyLe key) (Array_sort comparefn l).
Proof.
  induction l as [|x l IH]; cbn.
  - constructor.
  - apply sort_insert_sorted, IH.
Qed.

(** Stability: an element only moves past elements with a different key. *)
Lemma sort_insert_stable (k : Z) (x : A) (l : list A) :
  filter (fun a => key a =? k) (sort_insert comparefn x l)
  = filter (fun a => key a =? k) (x :: l).
Proof.
  induction l as [|y l IH]; [reflexivity|].
  cbn [sort_insert].
  destruct (Z.leb_spec (comparefn x y) 0) as [Hle|Hgt]; [reflexivity|].
  assert (Hne : key x <> key y).
  { intros Heq.
    assert (H : key x <= key y) by lia.
    apply comparefn_key in H. lia. }
  cbn [filter] in *.
  rewrite IH.
  destruct (Z.eqb_spec (key x) k), (Z.eqb_spec (key y) k);
    try reflexivity; congruence.
Qed.

Lemma Array_sort_stable (k : Z) (l : list A) :
  filter (fun a => key a =? k) (Array_sort comparefn l)
  = filter (fun a => key a =? k) l.
Proof.
  induction l as [|x l IH]; [reflexivity|].
  cbn [Array_sort fold_right].
  rewrite sort_insert_stable.
  cbn [filter].
  fold (Array_sort comparefn l).
  rewrite IH.
  reflexivity.
Qed.

(** In a sorted list, keys do not decrease from any position to a later
    one. *)
Lemma sorted_nth_le (l : list A) :
  StronglySorted (keyLe key) l ->
  forall (i j : nat) (a b : A),
    (i < j)%nat ->
    nth_error l i = Some a -> nth_error l j = Some b ->
    key a <= key b.
Proof.
  induction 1 as [|y l Hs IH Hy]; intros i j a b Hij Ha Hb.
  - destruct i; discriminate.
  - destruct j as [|j]; [lia|].
    cbn in Hb.
    destruct i as [|i]; cbn in Ha.
    + injection Ha as <-.
      rewrite Forall_forall in Hy.
      apply Hy. eapply nth_error_In, Hb.
    + apply (IH i j); [lia|assumption|assumption].
Qed.

End ArrayFacts.

(** ** The loops of [reset] *)

Lemma truthy_true (s : string) : truthy s = true <-> s <> EmptyString.
Proof.
  unfold truthy.
  destruct (String.eqb_spec s EmptyString) as [->|Hne]; cbn; split;
    congruence.
Qed.

Lemma toMarker_new (m : Marker.t) (a b c d e : option (list IMatch)) :
  MarkerTableItem.toMarker (MarkerTableItem.new m a b c d e) = m.
Proof. destruct m; reflexivity. Qed.

Lemma reset_marker_app (fo : FilterOptions.t) (items : list MarkerTableItem.t)
    (m : Marker.t) :
  reset_marker fo items m = items ++ reset_marker fo [] m.
Proof.
  unfold reset_marker.
  repeat match goal with
         | |- context [if ?c then _ else _] => destruct c
         | |- context [match ?x with Some _ => _ | None => _ end] =>
             destruct x
         end;
    cbn [app]; rewrite ?app_nil_r; reflexivity.
Qed.

Lemma fold_reset_marker (fo : FilterOptions.t) (ms : list Marker.t) :
  forall items,
    fold_left (reset_marker fo) ms items
    = items ++ flat_map (reset_marker fo []) ms.
Proof.
  induction ms as [|m ms IH]; intros items; cbn.
  - rewrite app_nil_r. reflexivity.
  - rewrite IH, (reset_marker_app fo items m), <- app_assoc. reflexivity.
Qed.

(** The nested loops visit every marker once, in encounter order, and each
    marker contributes at most its own row. *)
Lemma reset_items_flat (fo : FilterOptions.t)
    (groups : list ResourceMarkers.t) :
  reset_items fo groups = flat_map (reset_marker fo []) (allMarkers groups).
Proof.
  unfold reset_items, allMarkers.
  enough (H : forall items,
             fold_left
               (fun items resourceMarker =>
                  fold_left (reset_marker fo)
                    (ResourceMarkers.markers resourceMarker) items)
               groups items
             = items ++ flat_map (reset_marker fo [])
                          (flat_map ResourceMarkers.markers groups))
    by apply (H []).
  induction groups as [|g groups IH]; intros items; cbn.
  - rewrite app_nil_r. reflexivity.
  - rewrite IH, fold_reset_marker, flat_map_app, app_assoc. reflexivity.
Qed.

Lemma reset_rows (this : MarkersTable) (groups : list ResourceMarkers.t) :
  WorkbenchTable.rows (table (reset this groups))
  = Array_sort bySeverity (reset_items (filterOptions this) groups).
Proof. cbn. apply Array_splice_all. Qed.

Lemma In_reset_rows (this : MarkersTable) (groups : list ResourceMarkers.t)
    (row : MarkerTableItem.t) :
  In row (WorkbenchTable.rows (table (reset this groups)))
  <-> exists m, In m (allMarkers groups)
                /\ In row (reset_marker (filterOptions this) [] m).
Proof.
  rewrite reset_rows, Array_sort_In, reset_items_flat, in_flat_map.
  reflexivity.
Qed.

(** ** What [reset] does with one marker, branch by branch *)

Lemma walkThrough_test (m : Marker.t) :
  String.eqb (URI.scheme (Marker.resource m)) (network.walkThrough Schemas)
  || String.eqb (URI.scheme (Marker.resource m))
       (network.walkThroughSnippet Schemas) = true
  <-> inWalkThrough m.
Proof.
  unfold inWalkThrough.
  rewrite orb_true_iff, !String.eqb_eq.
  reflexivity.
Qed.

Lemma walkThrough_test_false (m : Marker.t) :
  ~ inWalkThrough m ->
  String.eqb (URI.scheme (Marker.resource m)) (network.walkThrough Schemas)
  || String.eqb (URI.scheme (Marker.resource m))
       (network.walkThroughSnippet Schemas) = false.
Proof.
  intros H.
  apply not_true_is_false.
  rewrite walkThrough_test.
  exact H.
Qed.

Lemma reset_marker_walkThrough (fo : FilterOptions.t) (m : Marker.t) :
  inWalkThrough m -> reset_marker fo [] m = [].
Proof.
  intros H. apply walkThrough_test in H.
  unfold reset_marker. rewrite H. reflexivity.
Qed.

Lemma reset_marker_excluded (fo : FilterOptions.t) (m : Marker.t) :
  excluded fo m = true -> reset_marker fo [] m = [].
Proof.
  unfold excluded, reset_marker. intros ->.
  destruct (_ || _); reflexivity.
Qed.

Lemma reset_marker_included (fo : FilterOptions.t) (m : Marker.t) :
  ~ inWalkThrough m -> excluded fo m = false -> included fo m = true ->
  reset_marker fo [] m = [MarkerTableItem.new m None None None None None].
Proof.
  unfold excluded, included, reset_marker.
  intros Hw -> ->.
  rewrite (walkThrough_test_false m Hw).
  reflexivity.
Qed.

Lemma reset_marker_severity_off (fo : FilterOptions.t) (m : Marker.t) :
  included fo m = false -> matchesSeverity fo m = false ->
  reset_marker fo [] m = [].
Proof.
  unfold included, reset_marker.
  intros -> ->.
  destruct (_ || _); [reflexivity|].
  destruct (FilterOptions.matches _ _); reflexivity.
Qed.

(** A marker that reaches the text filter. *)
Lemma reset_marker_text_stage (fo : FilterOptions.t) (m : Marker.t) :
  ~ inWalkThrough m -> excluded fo m = false -> included fo m = false ->
  matchesSeverity fo m = true ->
  reset_marker fo [] m
  = match FilterOptions.text (FilterOptions.textFilter fo) with
    | Some text =>
        if truthy text then
          if matched text m
             && negb (FilterOptions.negate (FilterOptions.textFilter fo))
             || negb (matched text m)
                && FilterOptions.negate (FilterOptions.textFilter fo)
          then [MarkerTableItem.new m (sourceMatches text m)
                  (codeMatches text m) (messageMatches text m)
                  (fileMatches text m) (ownerMatches text m)]
          else []
        else [MarkerTableItem.new m None None None None None]
    | None => [MarkerTableItem.new m None None None None None]
    end.
Proof.
  unfold excluded, included, reset_marker.
  intros Hw -> -> ->.
  rewrite (walkThrough_test_false m Hw).
  reflexivity.
Qed.

(** Every row that [reset] makes of a marker comes from one of two places. *)
Lemma reset_marker_inv (fo : FilterOptions.t) (m : Marker.t)
    (row : MarkerTableItem.t) :
  In row (reset_marker fo [] m) ->
  ~ inWalkThrough m
  /\ excluded fo m = false
  /\ ((included fo m = true
       /\ row = MarkerTableItem.new m None None None None None)
      \/ (included fo m = false
          /\ matchesSeverity fo m = true
          /\ In row
               match FilterOptions.text (FilterOptions.textFilter fo) with
               | Some text =>
                   if truthy text then
                     if matched text m
                        && negb (FilterOptions.negate
                                   (FilterOptions.textFilter fo))
                        || negb (matched text m)
                           && FilterOptions.negate
                                (FilterOptions.textFilter fo)
                     then [MarkerTableItem.new m (sourceMatches text m)
                             (codeMatches text m) (messageMatches text m)
                             (fileMatches text m) (ownerMatches text m)]
                     else []
                   else [MarkerTableItem.new m None None None None None]
               | None => [MarkerTableItem.new m None None None None None]
               end)).
Proof.
  intros Hin.
  assert (Hw : ~ inWalkThrough m).
  { intros H. rewrite (reset_marker_walkThrough fo m H) in Hin.
    destruct Hin. }
  destruct (excluded fo m) eqn:He.
  { rewrite (reset_marker_excluded fo m He) in Hin. destruct Hin. }
  split; [exact Hw|]. split; [reflexivity|].
  destruct (included fo m) eqn:Hi.
  - left. split; [reflexivity|].
    rewrite (reset_marker_included fo m Hw He Hi) in Hin.
    destruct Hin as [<-|[]]. reflexivity.
  - right. split; [reflexivity|].
    destruct (matchesSeverity fo m) eqn:Hs.
    + split; [reflexivity|].
      rewrite (reset_marker_text_stage fo m Hw He Hi Hs) in Hin.
      exact Hin.
    + rewrite (reset_marker_severity_off fo m Hi Hs) in Hin. destruct Hin.
Qed.

(** The row of a marker wraps that marker. *)
Lemma reset_marker_wraps (fo : FilterOptions.t) (m : Marker.t)
    (row : MarkerTableItem.t) :
  In row (reset_marker fo [] m) -> MarkerTableItem.toMarker row = m.
Proof.
  intros Hin.
  apply reset_marker_inv in Hin.
  destruct Hin as (_ & _ & [[_ ->]|(_ & _ & Hin)]).
  - apply toMarker_new.
  - destruct (FilterOptions.text (FilterOptions.textFilter fo)) as [text|].
    + destruct (truthy text).
      * destruct (_ || _); [|destruct Hin].
        destruct Hin as [<-|[]]. apply toMarker_new.
      * destruct Hin as [<-|[]]. apply toMarker_new.
    + destruct Hin as [<-|[]]. apply toMarker_new.
Qed.

(** The five conditions of the negate rule, as the test [reset] makes. *)
Lemma negate_rule (b negate : bool) :
  b && negb negate || negb b && negate = true
  <-> (b = true /\ negate = false) \/ (b = false /\ negate = true).
Proof. destruct b, negate; cbn; intuition congruence. Qed.

Lemma matchesSeverity_true (fo : FilterOptions.t) (m : Marker.t) :
  matchesSeverity fo m = true
  <-> (FilterOptions.showErrors fo = true
       /\ IMarker.severity (Marker.marker m) = MarkerSeverity.Error Severity)
      \/ (FilterOptions.showWarnings fo = true
          /\ IMarker.severity (Marker.marker m)
             = MarkerSeverity.Warning Severity)
      \/ (FilterOptions.showInfos fo = true
          /\ IMarker.severity (Marker.marker m)
             = MarkerSeverity.Info Severity).
Proof.
  unfold matchesSeverity.
  rewrite !orb_true_iff, !andb_true_iff, !Z.eqb_eq.
  intuition congruence.
Qed.

Lemma defined_true {A : Type} (x : option A) :
  defined x = true <-> exists a, x = Some a.
Proof.
  destruct x as [a|]; cbn; split.
  - intros _. exists a. reflexivity.
  - reflexivity.
  - discriminate.
  - intros [a H]. discriminate H.
Qed.

(** The span lists of the source and of the code are answers of [_filter]
    on a field that is there and not empty. *)
Lemma sourceMatches_some (text : string) (m : Marker.t)
    (spans : list IMatch) :
  sourceMatches text m = Some spans
  <-> exists source,
      IMarker.source (Marker.marker m) = Some source
      /\ source <> EmptyString
      /\ FilterOptions._filter Filters text source = Some spans.
Proof.
  unfold sourceMatches.
  destruct (IMarker.source (Marker.marker m)) as [source|].
  - destruct (truthy source) eqn:Ht.
    + apply truthy_true in Ht. split.
      * intros H. exists source. repeat split; assumption.
      * intros (s' & Hs & _ & H). injection Hs as <-. exact H.
    + split; [discriminate|].
      intros (s' & Hs & Hne & _). injection Hs as <-.
      apply truthy_true in Hne. congruence.
  - split; [discriminate|]. intros (s' & Hs & _). discriminate Hs.
Qed.

Lemma codeMatches_some (text : string) (m : Marker.t)
    (spans : list IMatch) :
  codeMatches text m = Some spans
  <-> (exists code,
          IMarker.code (Marker.marker m) = Some (CodeString code)
          /\ code <> EmptyString
          /\ FilterOptions._filter Filters text code = Some spans)
      \/ (exists value target,
             IMarker.code (Marker.marker m) = Some (CodeLink value target)
             /\ FilterOptions._filter Filters text value = Some spans).
Proof.
  unfold codeMatches.
  destruct (IMarker.code (Marker.marker m)) as [[code|value target]|].
  - destruct (truthy code) eqn:Ht.
    + apply truthy_true in Ht. split.
      * intros H. left. exists code. repeat split; assumption.
      * intros [(c & Hc & _ & H)|(v & t & Hc & _)]; [|discriminate Hc].
        injection Hc as <-. exact H.
    + split; [discriminate|].
      intros [(c & Hc & Hne & _)|(v & t & Hc & _)]; [|discriminate Hc].
      injection Hc as <-. apply truthy_true in Hne. congruence.
  - split.
    + intros H. right. exists value, target. split; [reflexivity|exact H].
    + intros [(c & Hc & _)|(v & t & Hc & H)]; [discriminate Hc|].
      injection Hc as <- <-. exact H.
  - split; [discriminate|].
    intros [(c & Hc & _)|(v & t & Hc & _)]; discriminate Hc.
Qed.

(** The test of [reset] on the five span lists, in terms of the matcher
    calls behind them. *)
Lemma matched_iff_fields (text : string) (m : Marker.t) :
  matched text m = true <-> someFieldMatches text m.
Proof.
  unfold matched, someFieldMatches, fieldSpans.
  rewrite !orb_true_iff, !defined_true.
  split.
  - intros [[[[[spans H]|[spans H]]|[spans H]]|[spans H]]|[spans H]];
      exists spans.
    + left. apply sourceMatches_some, H.
    + apply codeMatches_some in H. destruct H as [H|H]; auto.
    + right; right; right; left. exact H.
    + right; right; right; right; left. exact H.
    + right; right; right; right; right. exact H.
  - intros (spans & [H|[H|[H|[H|[H|H]]]]]).
    + left; left; left; left. exists spans. apply sourceMatches_some, H.
    + left; left; left; right. exists spans.
      apply codeMatches_some. left. exact H.
    + left; left; left; right. exists spans.
      apply codeMatches_some. right. exact H.
    + left; left; right. exists spans. exact H.
    + left; right. exists spans. exact H.
    + right. exists spans. exact H.
Qed.

Lemma matched_false_iff_fields (text : string) (m : Marker.t) :
  matched text m = false <-> ~ someFieldMatches text m.
Proof.
  rewrite <- matched_iff_fields.
  destruct (matched text m); split; congruence.
Qed.

Lemma reset_marker_passes (fo : FilterOptions.t) (m : Marker.t)
    (row : MarkerTableItem.t) :
  In row (reset_marker fo [] m) -> passesFilter fo m.
Proof.
  intros Hin.
  apply reset_marker_inv in Hin.
  destruct Hin as (Hw & He & [[Hi _]|(Hi & Hs & Hin)]).
  - split; [exact Hw|]. split; [exact He|]. left. exact Hi.
  - split; [exact Hw|]. split; [exact He|]. right.
    split; [apply matchesSeverity_true, Hs|].
    intros text Htext Hne.
    rewrite Htext in Hin.
    apply truthy_true in Hne. rewrite Hne in Hin.
    destruct (_ || _) eqn:Hrule in Hin; [|destruct Hin].
    apply negate_rule in Hrule.
    destruct Hrule as [[Hm Hn]|[Hm Hn]]; [left|right]; split;
      try exact Hn.
    + apply matched_iff_fields, Hm.
    + apply matched_false_iff_fields, Hm.
Qed.

(** ** The visible set *)

Lemma rows_pass (this : MarkersTable) (groups : list ResourceMarkers.t)
    (row : MarkerTableItem.t) :
  In row (WorkbenchTable.rows (table (reset this groups))) ->
  passesFilter (filterOptions this) (MarkerTableItem.toMarker row).
Proof.
  intros Hin.
  apply In_reset_rows in Hin.
  destruct Hin as (m & _ & Hin).
  rewrite (reset_marker_wraps _ _ _ Hin).
  eapply reset_marker_passes, Hin.
Qed.

(** A marker is on display exactly when it is in the dataset and [reset]
    makes a row of it. *)
Lemma In_visibleMarkers (this : MarkersTable)
    (groups : list ResourceMarkers.t) (m : Marker.t) :
  In m (visibleMarkers (reset this groups))
  <-> In m (allMarkers groups)
      /\ reset_marker (filterOptions this) [] m <> [].
Proof.
  unfold visibleMarkers.
  rewrite in_map_iff.
  split.
  - intros (row & Hrow & Hin).
    apply In_reset_rows in Hin.
    destruct Hin as (m' & Hm' & Hin).
    rewrite (reset_marker_wraps _ _ _ Hin) in Hrow. subst m'.
    split; [exact Hm'|].
    intros Hnil. rewrite Hnil in Hin. destruct Hin.
  - intros (Hm & Hne).
    destruct (reset_marker (filterOptions this) [] m) as [|row l] eqn:Hrm;
      [congruence|].
    assert (Hin : In row (reset_marker (filterOptions this) [] m))
      by (rewrite Hrm; left; reflexivity).
    exists row. split.
    + apply (reset_marker_wraps _ _ _ Hin).
    + apply In_reset_rows. exists m. split; assumption.
Qed.

(** C1. Every row of the visible set that [reset] produces, and so every
    row that [filterMarkers] produces, wraps a marker that is in neither
    walkthrough scheme, that the exclude matcher does not match, and that
    either the include matcher matches or else has its severity toggle on
    and satisfies the text filter under the negate rule. *)
Theorem visible_rows_pass_filter (this : MarkersTable)
    (groups : list ResourceMarkers.t) :
  (forall row,
      In row (WorkbenchTable.rows (table (reset this groups))) ->
      passesFilter (filterOptions this) (MarkerTableItem.toMarker row))
  /\ (forall fo row,
         In row (WorkbenchTable.rows (table (filterMarkers this groups fo))) ->
         passesFilter fo (MarkerTableItem.toMarker row)).
Proof.
  split.
  - intros row. apply rows_pass.
  - intros fo row Hin. unfold filterMarkers in Hin.
    apply rows_pass in Hin. exact Hin.
Qed.

(** C3, as the code has it. A marker of the dataset whose resource the
    include matcher matches, which is in neither walkthrough scheme and which
    the exclude matcher does not match, is on display with a row without
    spans, whatever the severity toggles and the text filter (negated or
    not) are. *)
Theorem included_marker_is_visible (this : MarkersTable)
    (groups : list ResourceMarkers.t) (fo : FilterOptions.t) (m : Marker.t) :
  In m (allMarkers groups) ->
  ~ inWalkThrough m ->
  excluded fo m = false ->
  included fo m = true ->
  In (MarkerTableItem.new m None None None None None)
    (WorkbenchTable.rows (table (filterMarkers this groups fo)))
  /\ In m (visibleMarkers (filterMarkers this groups fo)).
Proof.
  intros Hm Hw He Hi.
  assert (Hrm := reset_marker_included fo m Hw He Hi).
  split.
  - unfold filterMarkers. apply In_reset_rows. cbn [filterOptions].
    exists m. split; [exact Hm|]. rewrite Hrm. left. reflexivity.
  - unfold filterMarkers. apply In_visibleMarkers. cbn [filterOptions].
    split; [exact Hm|]. rewrite Hrm. discriminate.
Qed.

(** C4. Under a non-empty filter text (such as "foo"), a marker of the
    dataset that is in neither walkthrough scheme, is not exclude-matched,
    is not include-matched and has a severity whose toggle is on is on
    display, with a negated filter, exactly when none of the five fields
    (source, code, message, file label, owner) matches the text, and with a
    filter that is not negated exactly when at least one of them does. *)
Theorem negate_semantics (this : MarkersTable)
    (groups : list ResourceMarkers.t) (fo : FilterOptions.t) (m : Marker.t)
    (text : string) :
  In m (allMarkers groups) ->
  ~ inWalkThrough m ->
  excluded fo m = false ->
  included fo m = false ->
  severityEnabled fo m ->
  FilterOptions.text (FilterOptions.textFilter fo) = Some text ->
  text <> EmptyString ->
  (FilterOptions.negate (FilterOptions.textFilter fo) = true ->
   (In m (visibleMarkers (filterMarkers this groups fo))
    <-> ~ someFieldMatches text m))
  /\ (FilterOptions.negate (FilterOptions.textFilter fo) = false ->
      (In m (visibleMarkers (filterMarkers this groups fo))
       <-> someFieldMatches text m)).
Proof.
  intros Hm Hw He Hi Hs Htext Hne.
  apply matchesSeverity_true in Hs.
  assert (Hvis : In m (visibleMarkers (filterMarkers this groups fo))
                 <-> reset_marker fo [] m <> []).
  { unfold filterMarkers. rewrite In_visibleMarkers. cbn [filterOptions].
    tauto. }
  rewrite Hvis.
  rewrite (reset_marker_text_stage fo m Hw He Hi Hs), Htext.
  apply truthy_true in Hne. rewrite Hne.
  rewrite <- matched_false_iff_fields, <- matched_iff_fields.
  split; intros ->; destruct (matched text m); cbn; split;
    congruence.
Qed.

(** C6. A second [reset] with the same groups, the filter options being the
    same, shows the rows of the first: the same items, in the same order, and
    the same count. *)
Theorem reset_twice (this : MarkersTable) (groups : list ResourceMarkers.t) :
  let once := reset this groups in
  let twice := reset once groups in
  WorkbenchTable.rows (table twice) = WorkbenchTable.rows (table once)
  /\ visibleMarkers twice = visibleMarkers once
  /\ getVisibleItemCount twice = getVisibleItemCount once
  /\ twice = once.
Proof.
  intros once twice.
  assert (Hrows : WorkbenchTable.rows (table twice)
                  = WorkbenchTable.rows (table once)).
  { unfold twice, once. rewrite !reset_rows. reflexivity. }
  split; [exact Hrows|].
  split; [unfold visibleMarkers; rewrite Hrows; reflexivity|].
  split; [reflexivity|].
  unfold twice, once, reset, WorkbenchTable.splice.
  cbn [hidden filterOptions table WorkbenchTable.rows WorkbenchTable.focus
         WorkbenchTable.selection WorkbenchTable.ariaLabel].
  rewrite !Array_splice_all.
  reflexivity.
Qed.

(** C7. When the filter's text is absent or empty, every marker of the
    dataset that gets past the scheme and exclude checks and is either
    include-matched or has its severity toggle on is on display, its row has
    no spans, and so has every row; [reset] is a total function, so there is
    no input of this kind on which it fails. *)
Theorem no_text_filter (this : MarkersTable)
    (groups : list ResourceMarkers.t) :
  truthy_opt (FilterOptions.text (FilterOptions.textFilter
                                    (filterOptions this))) = false ->
  (forall m,
      In m (allMarkers groups) ->
      ~ inWalkThrough m ->
      excluded (filterOptions this) m = false ->
      included (filterOptions this) m = true
      \/ matchesSeverity (filterOptions this) m = true ->
      In (MarkerTableItem.new m None None None None None)
        (WorkbenchTable.rows (table (reset this groups))))
  /\ (forall row,
         In row (WorkbenchTable.rows (table (reset this groups))) ->
         noSpans row).
Proof.
  intros Htext.
  assert (Hstage :
            match FilterOptions.text
                    (FilterOptions.textFilter (filterOptions this)) with
            | Some text => truthy text = false
            | None => True
            end).
  { destruct (FilterOptions.text _); [exact Htext|exact I]. }
  split.
  - intros m Hm Hw He Hor.
    apply In_reset_rows. exists m. split; [exact Hm|].
    destruct (included (filterOptions this) m) eqn:Hi.
    + rewrite (reset_marker_included _ m Hw He Hi). left. reflexivity.
    + destruct Hor as [Hor|Hs]; [discriminate|].
      rewrite (reset_marker_text_stage _ m Hw He Hi Hs).
      destruct (FilterOptions.text _) as [text|].
      * rewrite Hstage. left. reflexivity.
      * left. reflexivity.
  - intros row Hin.
    apply In_reset_rows in Hin.
    destruct Hin as (m & _ & Hin).
    apply reset_marker_inv in Hin.
    destruct Hin as (_ & _ & [[_ ->]|(_ & _ & Hin)]).
    + repeat split.
    + destruct (FilterOptions.text _) as [text|].
      * rewrite Hstage in Hin. destruct Hin as [<-|[]]. repeat split.
      * destruct Hin as [<-|[]]. repeat split.
Qed.

(** ** Order of the rows *)

Lemma filter_filter_impl {A : Type} (p q : A -> bool) (l : list A) :
  (forall x, p x = true -> q x = true) ->
  filter p (filter q l) = filter p l.
Proof.
  intros Hpq.
  induction l as [|x l IH]; [reflexivity|].
  cbn [filter].
  destruct (q x) eqn:Hq.
  - cbn [filter]. rewrite IH. reflexivity.
  - rewrite IH.
    destruct (p x) eqn:Hp; [|reflexivity].
    apply Hpq in Hp. congruence.
Qed.

(** C2. When the severity comparator orders by rank, with Error before
    Warning before Info, the ranks of the rows that [reset] hands to the
    table never decrease from a row to the next; the rows of one severity
    are in the order in which the loops met them; and no Warning row comes
    before an Error row, nor an Info row before a Warning or Error row. *)
Theorem rows_sorted_by_severity (rank : MarkerSeverity.t -> Z)
    (this : MarkersTable) (groups : list ResourceMarkers.t) :
  comparesByRank rank ->
  let rows := WorkbenchTable.rows (table (reset this groups)) in
  let items := reset_items (filterOptions this) groups in
  (forall i a b,
      nth_error rows i = Some a -> nth_error rows (S i) = Some b ->
      rank (severityOf a) <= rank (severityOf b))
  /\ (forall severity,
         filter (fun row => severityOf row =? severity) rows
         = filter (fun row => severityOf row =? severity) items)
  /\ (forall i j a b,
         (i < j)%nat ->
         nth_error rows i = Some a -> nth_error rows j = Some b ->
         (severityOf a = MarkerSeverity.Warning Severity ->
          severityOf b <> MarkerSeverity.Error Severity)
         /\ (severityOf a = MarkerSeverity.Info Severity ->
             severityOf b <> MarkerSeverity.Error Severity
             /\ severityOf b <> MarkerSeverity.Warning Severity)).
Proof.
  intros [Hcmp Horder] rows items.
  set (key := fun row => rank (severityOf row)).
  assert (Hkey : forall a b, bySeverity a b <= 0 <-> key a <= key b).
  { intros a b. apply Hcmp. }
  assert (Hrows : rows = Array_sort bySeverity items) by apply reset_rows.
  assert (Hsorted : StronglySorted (keyLe key) rows).
  { rewrite Hrows. apply (Array_sort_sorted bySeverity key Hkey). }
  assert (Hle := sorted_nth_le key rows Hsorted).
  split; [|split].
  - intros i a b Ha Hb.
    apply (Hle i (S i) a b); [lia|assumption|assumption].
  - intros severity.
    rewrite <- (filter_filter_impl (fun row => severityOf row =? severity)
                  (fun row => key row =? rank severity) rows).
    + rewrite Hrows, (Array_sort_stable bySeverity key Hkey).
      apply filter_filter_impl.
      intros row Hrow. apply Z.eqb_eq in Hrow.
      apply Z.eqb_eq. unfold key. congruence.
    + intros row Hrow. apply Z.eqb_eq in Hrow.
      apply Z.eqb_eq. unfold key. congruence.
  - intros i j a b Hij Ha Hb.
    specialize (Hle i j a b Hij Ha Hb). unfold key in Hle.
    split.
    + intros Hwa Heb. rewrite Hwa, Heb in Hle. lia.
    + intros Hia. split; intros Hb'; rewrite Hia, Hb' in Hle; lia.
Qed.

(** ** Text matching *)

(** C8. With matchers that answer with a span list that is not empty or
    with the no-match signal, a marker counts as matched during text
    filtering exactly when at least one of its five fields gives a non-empty
    span list: the source or the code (the plain string, or the display
    value of a link) through [_filter], the message, the file label or the
    owner through [_messageFilter]; a source or a code that is absent gives
    none. *)
Theorem matched_iff_nonempty_span_list (text : string) (m : Marker.t) :
  matcherContract ->
  (matched text m = true
   <-> exists spans, spans <> [] /\ fieldSpans text m spans).
Proof.
  intros [Hf Hmf].
  rewrite matched_iff_fields. unfold someFieldMatches.
  split.
  - intros (spans & H). exists spans. split; [|exact H].
    intros ->.
    destruct H as [(s' & _ & _ & H)|[(c & _ & _ & H)|[(v & t & _ & H)
                  |[H|[H|H]]]]];
      first [exact (Hf _ _ H)|exact (Hmf _ _ H)].
  - intros (spans & _ & H). exists spans. exact H.
Qed.

(** With a matcher that never answers with an empty span list, the two
    readings of "matched" coincide. *)
Lemma matched_nonEmpty_agree (text : string) (m : Marker.t) :
  (forall t w, FilterOptions._filter Filters t w <> Some []) ->
  (forall t w, FilterOptions._messageFilter Filters t w <> Some []) ->
  matched text m = matched_nonEmpty text m.
Proof.
  intros Hf Hm.
  assert (Hagree : forall x : option (list IMatch),
             x <> Some [] -> defined x = nonEmptySpans x).
  { intros [[|? ?]|] Hx; cbn; congruence. }
  unfold matched, matched_nonEmpty.
  rewrite !Hagree; try reflexivity; try apply Hm.
  - unfold codeMatches.
    destruct (IMarker.code (Marker.marker m)) as [[c|v t]|];
      try apply Hf; try discriminate.
    destruct (truthy c); [apply Hf|discriminate].
  - unfold sourceMatches.
    destruct (IMarker.source (Marker.marker m)) as [src|]; [|discriminate].
    destruct (truthy src); [apply Hf|discriminate].
Qed.

(** ** Focus *)

(** C9, as the code has it. [getFocus] answers with the empty list in every
    state of the controller, so its answer is the same in any two states,
    whatever rows the table widget reports as focused. *)
Theorem getFocus_is_empty (this other : MarkersTable) :
  getFocus this = [] /\ getFocus this = getFocus other.
Proof. split; reflexivity. Qed.

(** ** Rows of the include bypass *)

Lemma noSpans_renderRow (row : MarkerTableItem.t) :
  noSpans row ->
  forall u, In u (renderRow row) -> highlights u = None.
Proof.
  intros (Hs & Hc & Hm & Hf & Ho) u.
  unfold renderRow, MarkerMessageColumnRenderer_renderElement,
    MarkerFileColumnRenderer_renderElement,
    MarkerOwnerColumnRenderer_renderElement.
  rewrite Hs, Hc, Hm, Hf, Ho.
  destruct (IMarker.source (MarkerTableItem.marker row)) as [src|],
    (IMarker.code (MarkerTableItem.marker row)) as [[c|v t]|];
    cbn [app In];
    try destruct (truthy src && _);
    cbn [app In];
    intros H;
    repeat match goal with
           | H : _ \/ _ |- _ => destruct H as [<-|H]; [reflexivity|]
           end;
    destruct H.
Qed.

(** C10. A row whose marker the include matcher matches went through the
    include bypass: none of its five span fields is set, even under a text
    filter that its fields would match, and no label that the message, file
    and owner cells set for it gets highlights. *)
Theorem bypass_rows_have_no_spans (this : MarkersTable)
    (groups : list ResourceMarkers.t) (row : MarkerTableItem.t) :
  In row (WorkbenchTable.rows (table (reset this groups))) ->
  included (filterOptions this) (MarkerTableItem.toMarker row) = true ->
  noSpans row
  /\ (forall u, In u (renderRow row) -> highlights u = None).
Proof.
  intros Hin Hi.
  assert (Hno : noSpans row).
  { apply In_reset_rows in Hin.
    destruct Hin as (m & _ & Hin).
    rewrite (reset_marker_wraps _ _ _ Hin) in Hi.
    apply reset_marker_inv in Hin.
    destruct Hin as (_ & _ & [[_ ->]|(Hi' & _)]).
    - repeat split.
    - congruence. }
  split; [exact Hno|].
  apply noSpans_renderRow, Hno.
Qed.

(** ** The loop of [update] *)

Lemma indexOf_from_found {A : Type} (same : A -> A -> bool) (x : A)
    (l : list A) :
  forall k,
    (exists y, In y l /\ same y x = true) ->
    exists i y,
      indexOf_from same l x k = k + Z.of_nat i
      /\ nth_error l i = Some y /\ same y x = true.
Proof.
  induction l as [|a l IH]; intros k (y & Hin & Hy).
  - destruct Hin.
  - cbn [indexOf_from].
    destruct (same a x) eqn:Ha.
    + exists 0%nat, a. cbn. split; [lia|]. split; [reflexivity|exact Ha].
    + destruct Hin as [->|Hin]; [congruence|].
      destruct (IH (k + 1) (ex_intro _ y (conj Hin Hy)))
        as (i & z & Hi & Hz & Hs).
      exists (S i), z. cbn [nth_error].
      split; [lia|]. split; assumption.
Qed.

Lemma indexOf_from_not_found {A : Type} (same : A -> A -> bool) (x : A)
    (l : list A) :
  forall k,
    (forall y, In y l -> same y x = false) ->
    indexOf_from same l x k = -1.
Proof.
  induction l as [|a l IH]; intros k H; [reflexivity|].
  cbn [indexOf_from].
  rewrite (H a (or_introl eq_refl)).
  apply IH. intros y Hy. apply H. right. exact Hy.
Qed.

Lemma nth_error_split_at {A : Type} (l : list A) :
  forall i y,
    nth_error l i = Some y -> firstn i l ++ [y] ++ skipn (S i) l = l.
Proof.
  induction l as [|a l IH]; intros [|i] y H; try discriminate.
  - injection H as ->. reflexivity.
  - cbn [firstn skipn app]. f_equal. apply IH, H.
Qed.

(** Splicing an element into the slot where it already is changes
    nothing. *)
Lemma Array_splice_same_slot {A : Type} (l : list A) (i : nat) (x : A) :
  nth_error l i = Some x ->
  Array_splice l (Z.of_nat i) (Some 1) [x] = l.
Proof.
  intros H.
  assert (Hlt : (i < List.length l)%nat)
    by (apply nth_error_Some; congruence).
  unfold Array_splice.
  replace (Z.of_nat i <? 0) with false by (symmetry; apply Z.ltb_ge; lia).
  rewrite Z.min_l by lia.
  replace (Z.min (Z.max 1 0) (Z.of_nat (List.length l) - Z.of_nat i))
    with 1 by lia.
  rewrite Nat2Z.id.
  replace (Z.to_nat (Z.of_nat i + 1)) with (S i) by lia.
  apply nth_error_split_at, H.
Qed.

(** When every replacement group is an object of the stored dataset, the
    loop leaves the dataset as it is, and [update] is [reset] on it. *)
Lemma update_groups_known (stored groups : list ResourceMarkers.t) :
  (forall g, In g groups -> In g stored) ->
  (forall a b, In a stored -> In b groups -> same_object a b = true -> a = b) ->
  update_groups stored groups = stored.
Proof.
  unfold update_groups.
  induction groups as [|g groups IH]; intros Hknown Hobj; [reflexivity|].
  cbn [fold_left].
  assert (Hstep : Array_splice stored (Array_indexOf same_object stored g)
                    (Some 1) [g] = stored).
  { destruct (indexOf_from_found same_object g stored 0) as (i & y & Hi & Hy & Hs).
    - exists g. split; [apply Hknown; left; reflexivity|].
      apply Pos.eqb_refl.
    - assert (y = g).
      { apply Hobj; [eapply nth_error_In, Hy|left; reflexivity|exact Hs]. }
      subst y.
      unfold Array_indexOf. rewrite Hi. cbn [Z.add].
      apply Array_splice_same_slot, Hy. }
  rewrite Hstep.
  apply IH.
  - intros g' Hg'. apply Hknown. right. exact Hg'.
  - intros a b Ha Hb. apply Hobj; [exact Ha|right; exact Hb].
Qed.

(** A replacement group that is no object of the stored dataset takes the
    place of the last stored group. *)
Lemma update_groups_unknown (stored : list ResourceMarkers.t)
    (g : ResourceMarkers.t) :
  (forall y, In y stored -> same_object y g = false) ->
  update_groups stored [g] = removelast stored ++ [g].
Proof.
  intros H.
  unfold update_groups, Array_indexOf. cbn [fold_left].
  rewrite (indexOf_from_not_found same_object g stored 0 H).
  apply Array_splice_minus_one.
Qed.

(** ** The visible set as a whole *)

Lemma reset_count (this : MarkersTable) (groups : list ResourceMarkers.t) :
  getVisibleItemCount (reset this groups)
  = List.length (WorkbenchTable.rows (table (reset this groups))).
Proof.
  rewrite reset_rows, Array_sort_length.
  reflexivity.
Qed.

(** X1. After [reset], [filterMarkers] and [update] alike, the count that
    [getVisibleItemCount] answers with is the number of rows the table
    holds. *)
Theorem count_is_number_of_rows (this : MarkersTable)
    (groups : list ResourceMarkers.t) (fo : FilterOptions.t) :
  getVisibleItemCount (reset this groups)
  = List.length (WorkbenchTable.rows (table (reset this groups)))
  /\ getVisibleItemCount (filterMarkers this groups fo)
     = List.length (WorkbenchTable.rows (table (filterMarkers this groups fo)))
  /\ getVisibleItemCount (update this groups)
     = List.length (WorkbenchTable.rows (table (update this groups))).
Proof.
  split; [|split].
  - apply reset_count.
  - unfold filterMarkers. apply reset_count.
  - unfold update. apply reset_count.
Qed.

(** A marker gives no row or one row, and that row wraps it. *)
Lemma reset_marker_shape (fo : FilterOptions.t) (m : Marker.t) :
  reset_marker fo [] m = []
  \/ exists row,
      reset_marker fo [] m = [row] /\ MarkerTableItem.toMarker row = m.
Proof.
  unfold reset_marker.
  repeat match goal with
         | |- context [if ?c then _ else _] => destruct c
         | |- context [match ?x with Some _ => _ | None => _ end] =>
             destruct x
         end;
    cbn [app];
    first [ left; reflexivity
          | right; eexists; split; [reflexivity|apply toMarker_new] ].
Qed.

Lemma items_wrap_shown_markers (fo : FilterOptions.t) (ms : list Marker.t) :
  map MarkerTableItem.toMarker (flat_map (reset_marker fo []) ms)
  = filter (shows fo) ms.
Proof.
  induction ms as [|m ms IH]; [reflexivity|].
  cbn [flat_map filter]. unfold shows at 1.
  rewrite map_app, IH.
  destruct (reset_marker_shape fo m) as [->|(row & -> & Hrow)].
  - reflexivity.
  - cbn. rewrite Hrow. reflexivity.
Qed.

(** X2. Before the sort the rows wrap, in encounter order, exactly the markers
    of the dataset that [reset] makes a row of, one row for each occurrence;
    the rows on display are a rearrangement of them, so no marker is shown
    twice or made up, and there are at most as many rows as markers. *)
Theorem visible_markers_are_the_shown_markers (this : MarkersTable)
    (groups : list ResourceMarkers.t) :
  map MarkerTableItem.toMarker (reset_items (filterOptions this) groups)
  = filter (shows (filterOptions this)) (allMarkers groups)
  /\ Permutation (visibleMarkers (reset this groups))
       (filter (shows (filterOptions this)) (allMarkers groups))
  /\ (List.length (WorkbenchTable.rows (table (reset this groups)))
      <= List.length (allMarkers groups))%nat.
Proof.
  assert (Hitems :
            map MarkerTableItem.toMarker
              (reset_items (filterOptions this) groups)
            = filter (shows (filterOptions this)) (allMarkers groups)).
  { rewrite reset_items_flat. apply items_wrap_shown_markers. }
  assert (Hperm : Permutation (visibleMarkers (reset this groups))
                    (filter (shows (filterOptions this)) (allMarkers groups))).
  { unfold visibleMarkers. rewrite reset_rows, <- Hitems.
    apply Permutation_map, Array_sort_perm. }
  split; [exact Hitems|]. split; [exact Hperm|].
  rewrite <- (length_map MarkerTableItem.toMarker).
  fold (visibleMarkers (reset this groups)).
  rewrite (Permutation_length Hperm).
  apply filter_length_le.
Qed.

Lemma shows_iff_passes (fo : FilterOptions.t) (m : Marker.t) :
  shows fo m = true <-> passesFilter fo m.
Proof.
  unfold shows. split.
  - destruct (reset_marker fo [] m) as [|row l] eqn:Hrm; [discriminate|].
    intros _. apply (reset_marker_passes fo m row).
    rewrite Hrm. left. reflexivity.
  - intros (Hw & He & Hor).
    destruct (included fo m) eqn:Hi.
    + rewrite (reset_marker_included fo m Hw He Hi). reflexivity.
    + destruct Hor as [Hor|[Hs Ht]]; [discriminate|].
      apply matchesSeverity_true in Hs.
      rewrite (reset_marker_text_stage fo m Hw He Hi Hs).
      unfold textFilterSatisfied in Ht.
      destruct (FilterOptions.text (FilterOptions.textFilter fo))
        as [text|]; [|reflexivity].
      destruct (truthy text) eqn:Htr; [|reflexivity].
      specialize (Ht text eq_refl (proj1 (truthy_true text) Htr)).
      assert (Hrule :
                matched text m
                && negb (FilterOptions.negate (FilterOptions.textFilter fo))
                || negb (matched text m)
                   && FilterOptions.negate (FilterOptions.textFilter fo)
                = true).
      { apply negate_rule.
        destruct Ht as [[Hm Hn]|[Hm Hn]]; [left|right]; split;
          try exact Hn.
        - apply matched_iff_fields, Hm.
        - apply matched_false_iff_fields, Hm. }
      rewrite Hrule. reflexivity.
Qed.

(** X3. Every marker of the dataset that is in neither walkthrough scheme, is
    not exclude-matched, and is include-matched or else has its severity
    toggle on and satisfies the text filter under the negate rule, is on
    display after [reset]: the filter hides nothing that passes it. *)
Theorem passing_markers_are_visible (this : MarkersTable)
    (groups : list ResourceMarkers.t) (m : Marker.t) :
  In m (allMarkers groups) ->
  passesFilter (filterOptions this) m ->
  In m (visibleMarkers (reset this groups)).
Proof.
  intros Hm Hp.
  apply In_visibleMarkers. split; [exact Hm|].
  apply shows_iff_passes in Hp. unfold shows in Hp.
  destruct (reset_marker (filterOptions this) [] m); [discriminate|].
  discriminate.
Qed.

(** X4. A dataset without markers, be it no group at all or groups that are all
    empty, leaves the table without rows and the count at zero, under every
    filter. *)
Theorem empty_dataset_shows_nothing (this : MarkersTable)
    (groups : list ResourceMarkers.t) (fo : FilterOptions.t) :
  allMarkers groups = [] ->
  WorkbenchTable.rows (table (filterMarkers this groups fo)) = []
  /\ getVisibleItemCount (filterMarkers this groups fo) = 0%nat.
Proof.
  intros Hnone.
  assert (Hrows : WorkbenchTable.rows (table (filterMarkers this groups fo))
                  = []).
  { unfold filterMarkers. rewrite reset_rows, reset_items_flat, Hnone.
    reflexivity. }
  split; [exact Hrows|].
  unfold filterMarkers. rewrite reset_count.
  unfold filterMarkers in Hrows. rewrite Hrows. reflexivity.
Qed.

(** ** How the operations compose *)

(** X5. A [reset] forgets the dataset and the rows of the [reset] before it:
    rows, dataset, count and filter are those of the second [reset] alone;
    and the filter that [filterMarkers] sets stays in force for the [reset]
    that follows. *)
Theorem last_reset_wins (this : MarkersTable)
    (groups1 groups2 : list ResourceMarkers.t) (fo : FilterOptions.t) :
  (WorkbenchTable.rows (table (reset (reset this groups1) groups2))
   = WorkbenchTable.rows (table (reset this groups2))
   /\ resourceMarkers (reset (reset this groups1) groups2) = groups2
   /\ getVisibleItemCount (reset (reset this groups1) groups2)
      = getVisibleItemCount (reset this groups2)
   /\ filterOptions (reset (reset this groups1) groups2)
      = filterOptions this)
  /\ (WorkbenchTable.rows
        (table (reset (filterMarkers this groups1 fo) groups2))
      = WorkbenchTable.rows (table (filterMarkers this groups2 fo))
      /\ resourceMarkers (reset (filterMarkers this groups1 fo) groups2)
         = groups2
      /\ getVisibleItemCount (reset (filterMarkers this groups1 fo) groups2)
         = getVisibleItemCount (filterMarkers this groups2 fo)
      /\ filterOptions (reset (filterMarkers this groups1 fo) groups2) = fo).
Proof.
  split.
  - split; [rewrite !reset_rows; reflexivity|].
    repeat split.
  - unfold filterMarkers.
    split; [rewrite !reset_rows; reflexivity|].
    repeat split.
Qed.

(** ** What [update] does to the dataset *)

Lemma update_is_reset_on_updated (this : MarkersTable)
    (groups : list ResourceMarkers.t) :
  update this groups
  = reset this (update_groups (resourceMarkers this) groups).
Proof. reflexivity. Qed.

(** X6. When every group handed to [update] is an object of the stored dataset,
    [update] leaves the dataset as it is and does what [reset] does on it. *)
Theorem update_known_is_reset (this : MarkersTable)
    (groups : list ResourceMarkers.t) :
  (forall g, In g groups -> In g (resourceMarkers this)) ->
  (forall a b,
      In a (resourceMarkers this) -> In b groups ->
      same_object a b = true -> a = b) ->
  resourceMarkers (update this groups) = resourceMarkers this
  /\ update this groups = reset this (resourceMarkers this).
Proof.
  intros Hknown Hobj.
  rewrite update_is_reset_on_updated.
  rewrite (update_groups_known (resourceMarkers this) groups Hknown Hobj).
  split; reflexivity.
Qed.






Lemma last_cons_default {A : Type} (l : list A) (a d : A) :
  last (a :: l) d = last l a.
Proof.
  revert a d. induction l as [|b l IH]; intros a d; [reflexivity|].
  change (last (a :: b :: l) d) with (last (b :: l) d).
  rewrite !IH. reflexivity.
Qed.

Lemma update_groups_singleton (groups : list ResourceMarkers.t) :
  forall a, update_groups [a] groups = [last groups a].
Proof.
  unfold update_groups.
  induction groups as [|g groups IH]; intros a; [reflexivity|].
  cbn [fold_left].
  assert (Hstep : Array_splice [a] (Array_indexOf same_object [a] g)
                    (Some 1) [g] = [g]).
  { unfold Array_indexOf. cbn [indexOf_from].
    destruct (same_object a g); reflexivity. }
  rewrite Hstep, IH, last_cons_default.
  reflexivity.
Qed.

(** X8. On a table whose dataset is empty, [update] keeps only the last of the
    groups it is handed: the first one is appended, and each later one takes
    its place. The rows are then those of a [reset] with that group alone. *)
Theorem update_on_empty_dataset_keeps_last (this : MarkersTable)
    (g : ResourceMarkers.t) (groups : list ResourceMarkers.t) :
  resourceMarkers this = [] ->
  resourceMarkers (update this (g :: groups)) = [last groups g]
  /\ update this (g :: groups) = reset this [last groups g].
Proof.
  intros Hempty.
  assert (Hgroups : update_groups (resourceMarkers this) (g :: groups)
                    = [last groups g]).
  { rewrite Hempty.
    change (update_groups [] (g :: groups))
      with (update_groups [g] groups).
    apply update_groups_singleton. }
  rewrite update_is_reset_on_updated, Hgroups.
  split; reflexivity.
Qed.

(** ** Severity toggles *)

(** X10. A marker on display that the include matcher does not match has one of
    the severities Error, Warning and Info, and the toggle of that severity
    is on. So a marker of any other severity, and every marker once the
    three toggles are off, is shown only through the include matcher. *)
Theorem shown_without_include_has_enabled_severity (this : MarkersTable)
    (groups : list ResourceMarkers.t) (m : Marker.t) :
  In m (visibleMarkers (reset this groups)) ->
  included (filterOptions this) m = false ->
  (FilterOptions.showErrors (filterOptions this) = true
   /\ IMarker.severity (Marker.marker m) = MarkerSeverity.Error Severity)
  \/ (FilterOptions.showWarnings (filterOptions this) = true
      /\ IMarker.severity (Marker.marker m) = MarkerSeverity.Warning Severity)
  \/ (FilterOptions.showInfos (filterOptions this) = true
      /\ IMarker.severity (Marker.marker m) = MarkerSeverity.Info Severity).
Proof.
  intros Hin Hi.
  apply In_visibleMarkers in Hin. destruct Hin as [_ Hne].
  destruct (reset_marker (filterOptions this) [] m) as [|row l] eqn:Hrm;
    [congruence|].
  assert (Hrow : In row (reset_marker (filterOptions this) [] m))
    by (rewrite Hrm; left; reflexivity).
  apply reset_marker_inv in Hrow.
  destruct Hrow as (_ & _ & [[Hi' _]|(_ & Hs & _)]); [congruence|].
  apply matchesSeverity_true, Hs.
Qed.

Lemma matchesSeverity_widens (fo fo' : FilterOptions.t) (m : Marker.t) :
  widensSeverities fo fo' ->
  matchesSeverity fo m = true -> matchesSeverity fo' m = true.
Proof.
  intros (He & Hw & Hi & _) H.
  apply matchesSeverity_true in H. apply matchesSeverity_true.
  destruct H as [[H1 H2]|[[H1 H2]|[H1 H2]]]; auto.
Qed.

Lemma reset_marker_widens (fo fo' : FilterOptions.t) (m : Marker.t)
    (row : MarkerTableItem.t) :
  widensSeverities fo fo' ->
  In row (reset_marker fo [] m) -> In row (reset_marker fo' [] m).
Proof.
  intros Hwide Hin.
  assert (Hsev := matchesSeverity_widens fo fo' m Hwide).
  destruct Hwide as (_ & _ & _ & Hex & Hinc & Htf).
  apply reset_marker_inv in Hin.
  destruct Hin as (Hw & He & Hcases).
  assert (He' : excluded fo' m = false)
    by (unfold excluded in *; rewrite Hex; exact He).
  destruct Hcases as [[Hi ->]|(Hi & Hs & Hin)].
  - assert (Hi' : included fo' m = true)
      by (unfold included in *; rewrite Hinc; exact Hi).
    rewrite (reset_marker_included fo' m Hw He' Hi').
    left. reflexivity.
  - assert (Hi' : included fo' m = false)
      by (unfold included in *; rewrite Hinc; exact Hi).
    rewrite (reset_marker_text_stage fo' m Hw He' Hi' (Hsev Hs)), Htf.
    exact Hin.
Qed.

(** X11. Switching severity toggles on, with the matchers and the text filter
    as they are, hides no row: every row on display before is on display
    after, with the same spans. *)
Theorem widening_severities_keeps_rows (this : MarkersTable)
    (groups : list ResourceMarkers.t) (fo fo' : FilterOptions.t)
    (row : MarkerTableItem.t) :
  widensSeverities fo fo' ->
  In row (WorkbenchTable.rows (table (filterMarkers this groups fo))) ->
  In row (WorkbenchTable.rows (table (filterMarkers this groups fo'))).
Proof.
  unfold filterMarkers.
  intros Hwide Hin.
  apply In_reset_rows in Hin. cbn [filterOptions] in Hin.
  destruct Hin as (m & Hm & Hin).
  apply In_reset_rows. cbn [filterOptions].
  exists m. split; [exact Hm|].
  apply (reset_marker_widens fo fo' m row Hwide Hin).
Qed.

(** ** Spans and highlights *)

Lemma matched_false (text : string) (m : Marker.t) :
  matched text m = false ->
  sourceMatches text m = None /\ codeMatches text m = None
  /\ messageMatches text m = None /\ fileMatches text m = None
  /\ ownerMatches text m = None.
Proof.
  unfold matched.
  destruct (sourceMatches text m), (codeMatches text m),
    (messageMatches text m), (fileMatches text m), (ownerMatches text m);
    cbn; intros H; try discriminate H.
  repeat split.
Qed.

(** X12. Under a negated text filter no row has spans: a marker is then shown for
    having no match, or through the include matcher. *)
Theorem negated_filter_gives_no_spans (this : MarkersTable)
    (groups : list ResourceMarkers.t) (row : MarkerTableItem.t) :
  FilterOptions.negate (FilterOptions.textFilter (filterOptions this)) = true ->
  In row (WorkbenchTable.rows (table (reset this groups))) ->
  noSpans row.
Proof.
  intros Hneg Hin.
  apply In_reset_rows in Hin.
  destruct Hin as (m & _ & Hin).
  apply reset_marker_inv in Hin.
  destruct Hin as (_ & _ & [[_ ->]|(_ & _ & Hin)]); [repeat split|].
  destruct (FilterOptions.text _) as [text|];
    [|destruct Hin as [<-|[]]; repeat split].
  destruct (truthy text); [|destruct Hin as [<-|[]]; repeat split].
  destruct (_ || _) eqn:Hrule in Hin; [|destruct Hin].
  destruct Hin as [<-|[]].
  apply negate_rule in Hrule.
  destruct Hrule as [[_ Hn]|[Hm _]]; [congruence|].
  exact (matched_false text m Hm).
Qed.

(** X13. Under a text filter that is set and not negated, a row whose marker the
    include matcher does not match has a span list in at least one of its
    five fields. *)
Theorem text_filter_rows_have_spans (this : MarkersTable)
    (groups : list ResourceMarkers.t) (text : string)
    (row : MarkerTableItem.t) :
  FilterOptions.text (FilterOptions.textFilter (filterOptions this))
  = Some text ->
  text <> EmptyString ->
  FilterOptions.negate (FilterOptions.textFilter (filterOptions this))
  = false ->
  In row (WorkbenchTable.rows (table (reset this groups))) ->
  included (filterOptions this) (MarkerTableItem.toMarker row) = false ->
  ~ noSpans row.
Proof.
  intros Htext Hne Hneg Hin Hi.
  apply In_reset_rows in Hin.
  destruct Hin as (m & _ & Hin).
  rewrite (reset_marker_wraps _ _ _ Hin) in Hi.
  apply reset_marker_inv in Hin.
  destruct Hin as (_ & _ & [[Hi' _]|(_ & _ & Hin)]); [congruence|].
  rewrite Htext in Hin.
  apply truthy_true in Hne. rewrite Hne in Hin.
  destruct (_ || _) eqn:Hrule in Hin; [|destruct Hin].
  destruct Hin as [<-|[]].
  apply negate_rule in Hrule.
  destruct Hrule as [[Hm _]|[_ Hn]]; [|congruence].
  intros (Hs & Hc & Hmsg & Hf & Ho).
  cbn in Hs, Hc, Hmsg, Hf, Ho.
  unfold matched in Hm.
  rewrite Hs, Hc, Hmsg, Hf, Ho in Hm.
  discriminate Hm.
Qed.

(** The label updates of a row, one by one. *)
Lemma renderRow_inv (element : MarkerTableItem.t) (u : LabelSet) :
  In u (renderRow element) ->
  let marker := MarkerTableItem.marker element in
  (label u = messageLabel
   /\ label_text u = IMarker.message marker
   /\ highlights u = MarkerTableItem.messageMatches element)
  \/ (label u = sourceLabel
      /\ (exists source,
             IMarker.source marker = Some source /\ truthy source = true
             /\ label_text u = source)
      /\ highlights u = MarkerTableItem.sourceMatches element)
  \/ (label u = codeLabel
      /\ (exists code,
             IMarker.code marker = Some (CodeString code)
             /\ truthy code = true /\ label_text u = code)
      /\ highlights u = MarkerTableItem.codeMatches element)
  \/ (label u = codeLinkLabel
      /\ (exists value target,
             IMarker.code marker = Some (CodeLink value target)
             /\ label_text u = value)
      /\ highlights u = MarkerTableItem.codeMatches element)
  \/ (label u = fileLabel
      /\ label_text u = getUriLabel labelService (IMarker.resource marker)
      /\ highlights u = MarkerTableItem.fileMatches element)
  \/ (label u = positionLabel /\ highlights u = None)
  \/ (label u = highlightedLabel
      /\ label_text u = IMarker.owner marker
      /\ highlights u = MarkerTableItem.ownerMatches element).
Proof.
  intros Hu marker.
  unfold renderRow in Hu.
  rewrite !in_app_iff in Hu.
  destruct Hu as [Hu|[Hu|Hu]].
  - unfold MarkerMessageColumnRenderer_renderElement in Hu.
    fold marker in Hu.
    destruct Hu as [<-|Hu]; [left; repeat split|].
    destruct (IMarker.source marker) as [source|] eqn:Hsrc;
      [|destruct Hu].
    destruct (IMarker.code marker) as [code|] eqn:Hcode;
      [|destruct Hu].
    destruct (truthy source) eqn:Hts; [|destruct Hu].
    destruct code as [c|value target].
    + cbn [truthy_code andb] in Hu.
      destruct (truthy c) eqn:Htc; [|destruct Hu].
      destruct Hu as [<-|[<-|[]]].
      * right; left. split; [reflexivity|]. split; [|reflexivity].
        exists source. repeat split. exact Hts.
      * right; right; left. split; [reflexivity|]. split; [|reflexivity].
        exists c. repeat split. exact Htc.
    + cbn [truthy_code andb] in Hu.
      destruct Hu as [<-|[<-|[]]].
      * right; left. split; [reflexivity|]. split; [|reflexivity].
        exists source. repeat split. exact Hts.
      * right; right; right; left.
        split; [reflexivity|]. split; [|reflexivity].
        exists value, target. repeat split.
  - unfold MarkerFileColumnRenderer_renderElement in Hu.
    destruct Hu as [<-|[<-|[]]].
    + right; right; right; right; left. repeat split.
    + right; right; right; right; right; left. repeat split.
  - unfold MarkerOwnerColumnRenderer_renderElement in Hu.
    destruct Hu as [<-|[]].
    right; right; right; right; right; right. repeat split.
Qed.

(** X14. When a text filter is set, every label that the cells of a row update
    with highlights gets the spans that the matcher of its field answers for
    the filter text on the very text the label shows: the source and code
    labels through [_filter], the message, file and owner labels through
    [_messageFilter], and the position label gets none. *)
Theorem highlights_fit_their_labels (this : MarkersTable)
    (groups : list ResourceMarkers.t) (text : string)
    (row : MarkerTableItem.t) (u : LabelSet) :
  FilterOptions.text (FilterOptions.textFilter (filterOptions this))
  = Some text ->
  In row (WorkbenchTable.rows (table (reset this groups))) ->
  In u (renderRow row) ->
  highlightsComputedOn text u.
Proof.
  intros Htext Hin Hu.
  assert (Hplain : noSpans row -> highlightsComputedOn text u).
  { intros Hno. unfold highlightsComputedOn.
    rewrite (noSpans_renderRow row Hno u Hu). exact I. }
  apply In_reset_rows in Hin.
  destruct Hin as (m & _ & Hin).
  apply reset_marker_inv in Hin.
  destruct Hin as (_ & _ & [[_ Hrow]|(_ & _ & Hin)]).
  { apply Hplain. rewrite Hrow. repeat split. }
  rewrite Htext in Hin.
  destruct (truthy text).
  2:{ destruct Hin as [<-|[]]. apply Hplain. repeat split. }
  destruct (_ || _) in Hin; [|destruct Hin].
  destruct Hin as [Hrow|[]].
  apply renderRow_inv in Hu.
  rewrite <- Hrow in Hu.
  cbn [MarkerTableItem.new MarkerTableItem.marker
         MarkerTableItem.sourceMatches MarkerTableItem.codeMatches
         MarkerTableItem.messageMatches MarkerTableItem.fileMatches
         MarkerTableItem.ownerMatches] in Hu.
  unfold highlightsComputedOn.
  destruct Hu as [(Hl & Ht & Hh)|[(Hl & (source & Hs & Hts & Ht) & Hh)
                 |[(Hl & (code & Hc & Htc & Ht) & Hh)
                 |[(Hl & (value & target & Hc & Ht) & Hh)
                 |[(Hl & Ht & Hh)|[(Hl & Hh)|(Hl & Ht & Hh)]]]]]];
    rewrite Hh, ?Hl, ?Ht.
  - unfold messageMatches.
    destruct (FilterOptions._messageFilter _ _ _); [reflexivity|exact I].
  - unfold sourceMatches. rewrite Hs, Hts.
    destruct (FilterOptions._filter _ _ _); [reflexivity|exact I].
  - unfold codeMatches. rewrite Hc, Htc.
    destruct (FilterOptions._filter _ _ _); [reflexivity|exact I].
  - unfold codeMatches. rewrite Hc.
    destruct (FilterOptions._filter _ _ _); [reflexivity|exact I].
  - unfold fileMatches, Marker.resource.
    destruct (FilterOptions._messageFilter _ _ _); [reflexivity|exact I].
  - exact I.
  - unfold ownerMatches.
    destruct (FilterOptions._messageFilter _ _ _); [reflexivity|exact I].
Qed.

(** ** More on order and on [update] *)

Lemma Array_sort_of_sorted {A : Type} (comparefn : A -> A -> Z)
    (l : list A) :
  StronglySorted (fun a b => comparefn a b <= 0) l ->
  Array_sort comparefn l = l.
Proof.
  induction 1 as [|x l Hs IH Hx]; [reflexivity|].
  cbn [Array_sort fold_right]. fold (Array_sort comparefn l).
  rewrite IH.
  destruct l as [|y l]; [reflexivity|].
  cbn [sort_insert].
  apply Forall_inv in Hx. apply Z.leb_le in Hx.
  rewrite Hx. reflexivity.
Qed.

(** X15. When the items come out of the loops in an order in which each already
    compares at or before every later one by severity, the sort moves
    nothing: the rows are shown in encounter order. *)
Theorem sorted_items_stay_in_order (this : MarkersTable)
    (groups : list ResourceMarkers.t) :
  StronglySorted (fun a b => bySeverity a b <= 0)
    (reset_items (filterOptions this) groups) ->
  WorkbenchTable.rows (table (reset this groups))
  = reset_items (filterOptions this) groups.
Proof.
  intros Hsorted.
  rewrite reset_rows.
  apply Array_sort_of_sorted, Hsorted.
Qed.

(** X9. Handing [update] one group that is no object of the stored dataset puts
    that group in the place of the last stored group. *)
Theorem update_unknown_replaces_last (this : MarkersTable)
    (g : ResourceMarkers.t) :
  (forall y, In y (resourceMarkers this) -> same_object y g = false) ->
  resourceMarkers (update this [g]) = removelast (resourceMarkers this) ++ [g]
  /\ update this [g] = reset this (removelast (resourceMarkers this) ++ [g]).
Proof.
  intros Hunknown.
  rewrite update_is_reset_on_updated.
  rewrite (update_groups_unknown (resourceMarkers this) g Hunknown).
  split; reflexivity.
Qed.

End Controller.

(** ** The controller at work in the concrete workbench *)

Local Abbreviation demoReset :=
  (reset demoSchemas demoSeverity demoFilters demoLabelService).
Local Abbreviation demoFilterMarkers :=
  (filterMarkers demoSchemas demoSeverity demoFilters demoLabelService).
Local Abbreviation demoUpdate :=
  (update demoSchemas demoSeverity demoFilters demoLabelService).
Local Abbreviation demoPasses :=
  (passesFilter demoSchemas demoSeverity demoFilters demoLabelService).
Local Abbreviation plain m := (MarkerTableItem.new m None None None None None).

(** Errors only and the text "foo": of the three markers of groups A and B
    only the error "missing foo" is shown, with the span of the match in its
    message. *)
Lemma visible_rows_pass_filter_witness :
  let this :=
    emptyTable
      (mkFilter true false false matchNone matchNone (Some "foo") false) in
  let row :=
    MarkerTableItem.new markerA2 None None
      (Some [ {| start := 8; end_ := 11 |} ]) None None in
  WorkbenchTable.rows (table (demoReset this [groupA; groupB])) = [row]
  /\ demoPasses (filterOptions this) (MarkerTableItem.toMarker row).
Proof.
  intros this row.
  assert (Hrows : WorkbenchTable.rows (table (demoReset this [groupA; groupB]))
                  = [row]) by (vm_compute; reflexivity).
  split; [exact Hrows|].
  apply (proj1 (visible_rows_pass_filter demoSchemas demoSeverity demoFilters
                  demoLabelService this [groupA; groupB])).
  rewrite Hrows. left. reflexivity.
Defined.

(** The descending difference orders by the negated number, and the rows of
    groups A and B come out with the two errors first. *)
Lemma rows_sorted_by_severity_witness :
  let this := emptyTable showAll in
  let rows := WorkbenchTable.rows (table (demoReset this [groupA; groupB])) in
  comparesByRank demoSeverity demoRank
  /\ map MarkerTableItem.id rows = ["a2"; "b1"; "a1"]
  /\ (forall i a b,
         nth_error rows i = Some a -> nth_error rows (S i) = Some b ->
         demoRank (severityOf a) <= demoRank (severityOf b)).
Proof.
  intros this rows.
  assert (H : comparesByRank demoSeverity demoRank).
  { unfold comparesByRank, demoRank. cbn. split; [intros a b; lia | lia]. }
  split; [exact H|].
  split; [vm_compute; reflexivity|].
  exact (proj1 (rows_sorted_by_severity demoSchemas demoSeverity demoFilters
                  demoLabelService demoRank this [groupA; groupB] H)).
Defined.

(** All severity toggles off and a text that matches nothing: the warning of
    group A is shown all the same once the include matcher matches. *)
Lemma included_marker_is_visible_witness :
  let fo := mkFilter false false false matchNone matchAll (Some "zzz") true in
  In markerA1 (allMarkers [groupA])
  /\ ~ inWalkThrough demoSchemas markerA1
  /\ excluded fo markerA1 = false
  /\ included fo markerA1 = true
  /\ In (plain markerA1)
       (WorkbenchTable.rows
          (table (demoFilterMarkers (emptyTable showAll) [groupA] fo)))
  /\ In markerA1
       (visibleMarkers (demoFilterMarkers (emptyTable showAll) [groupA] fo)).
Proof.
  intros fo.
  assert (Hm : In markerA1 (allMarkers [groupA])) by (left; reflexivity).
  assert (Hw : ~ inWalkThrough demoSchemas markerA1).
  { intros [H|H]; discriminate H. }
  assert (He : excluded fo markerA1 = false) by reflexivity.
  assert (Hi : included fo markerA1 = true) by reflexivity.
  repeat (split; [assumption|]).
  exact (included_marker_is_visible demoSchemas demoSeverity demoFilters
           demoLabelService (emptyTable showAll) [groupA] fo markerA1
           Hm Hw He Hi).
Defined.

(** The negated text "foo": "missing bar" has it in no field. *)
Lemma negate_semantics_witness :
  let fo := mkFilter true true true matchNone matchNone (Some "foo") true in
  let shown :=
    visibleMarkers (demoFilterMarkers (emptyTable showAll) [groupA; groupB] fo)
  in
  In markerB1 (allMarkers [groupA; groupB])
  /\ ~ inWalkThrough demoSchemas markerB1
  /\ excluded fo markerB1 = false
  /\ included fo markerB1 = false
  /\ severityEnabled demoSeverity fo markerB1
  /\ FilterOptions.text (FilterOptions.textFilter fo) = Some "foo"
  /\ "foo" <> EmptyString
  /\ (In markerB1 shown
      <-> ~ someFieldMatches demoFilters demoLabelService "foo" markerB1).
Proof.
  intros fo shown.
  assert (Hm : In markerB1 (allMarkers [groupA; groupB]))
    by (right; right; left; reflexivity).
  assert (Hw : ~ inWalkThrough demoSchemas markerB1).
  { intros [H|H]; discriminate H. }
  assert (He : excluded fo markerB1 = false) by reflexivity.
  assert (Hi : included fo markerB1 = false) by reflexivity.
  assert (Hs : severityEnabled demoSeverity fo markerB1)
    by (left; split; reflexivity).
  assert (Ht : FilterOptions.text (FilterOptions.textFilter fo) = Some "foo")
    by reflexivity.
  assert (Hne : "foo" <> EmptyString) by discriminate.
  repeat (split; [assumption|]).
  exact (proj1 (negate_semantics demoSchemas demoSeverity demoFilters
                  demoLabelService (emptyTable showAll) [groupA; groupB] fo
                  markerB1 "foo" Hm Hw He Hi Hs Ht Hne) eq_refl).
Defined.

(** Errors only and the empty text: the error of group A is shown, without
    spans. *)
Lemma no_text_filter_witness :
  let this :=
    emptyTable (mkFilter true false false matchNone matchNone (Some EmptyString) false)
  in
  truthy_opt (FilterOptions.text
                (FilterOptions.textFilter (filterOptions this))) = false
  /\ In markerA2 (allMarkers [groupA])
  /\ ~ inWalkThrough demoSchemas markerA2
  /\ excluded (filterOptions this) markerA2 = false
  /\ matchesSeverity demoSeverity (filterOptions this) markerA2 = true
  /\ In (plain markerA2)
       (WorkbenchTable.rows (table (demoReset this [groupA])))
  /\ noSpans (plain markerA2).
Proof.
  intros this.
  assert (Ht : truthy_opt (FilterOptions.text
                             (FilterOptions.textFilter (filterOptions this)))
               = false) by reflexivity.
  assert (Hm : In markerA2 (allMarkers [groupA]))
    by (right; left; reflexivity).
  assert (Hw : ~ inWalkThrough demoSchemas markerA2).
  { intros [H|H]; discriminate H. }
  assert (He : excluded (filterOptions this) markerA2 = false)
    by reflexivity.
  assert (Hs : matchesSeverity demoSeverity (filterOptions this) markerA2
               = true) by reflexivity.
  assert (Hall := no_text_filter demoSchemas demoSeverity demoFilters
                    demoLabelService this [groupA] Ht).
  assert (Hin := proj1 Hall markerA2 Hm Hw He (or_intror Hs)).
  repeat (split; [assumption|]).
  exact (proj2 Hall (plain markerA2) Hin).
Defined.

(** The substring matcher answers with one span or with no match, and "foo"
    is in the message of "missing foo". *)
Lemma matched_iff_nonempty_span_list_witness :
  matcherContract demoFilters
  /\ (matched demoFilters demoLabelService "foo" markerA2 = true
      <-> exists spans,
          spans <> []
          /\ fieldSpans demoFilters demoLabelService "foo" markerA2 spans).
Proof.
  assert (Hc : matcherContract demoFilters).
  { split; intros text word; cbn; unfold substringMatch;
      destruct (String.index 0 text word); discriminate. }
  split; [exact Hc|].
  exact (matched_iff_nonempty_span_list demoFilters demoLabelService "foo"
           markerA2 Hc).
Defined.

(** Under the include matcher and the text "foo", the row of "missing foo"
    has no span although its message has the text. *)
Lemma bypass_rows_have_no_spans_witness :
  let this :=
    emptyTable (mkFilter true true true matchNone matchAll (Some "foo") false)
  in
  In (plain markerA2) (WorkbenchTable.rows (table (demoReset this [groupA])))
  /\ included (filterOptions this)
       (MarkerTableItem.toMarker (plain markerA2)) = true
  /\ messageMatches demoFilters "foo" markerA2 <> None
  /\ noSpans (plain markerA2)
  /\ (forall u,
         In u (renderRow demoLabelService demoPosition (plain markerA2)) ->
         highlights u = None).
Proof.
  intros this.
  assert (Hin : In (plain markerA2)
                  (WorkbenchTable.rows (table (demoReset this [groupA]))))
    by (vm_compute; left; reflexivity).
  assert (Hi : included (filterOptions this)
                 (MarkerTableItem.toMarker (plain markerA2)) = true)
    by reflexivity.
  split; [exact Hin|].
  split; [exact Hi|].
  split; [discriminate|].
  exact (bypass_rows_have_no_spans demoSchemas demoSeverity demoFilters
           demoLabelService demoPosition this [groupA] (plain markerA2)
           Hin Hi).
Defined.

(** ** Where the code and its description part *)

(** A marker that both matchers match stays hidden: the exclude test comes
    first. *)
Lemma included_and_excluded_marker_is_hidden :
  let fo := mkFilter true true true matchAll matchAll None false in
  In markerA1 (allMarkers [groupA])
  /\ included fo markerA1 = true
  /\ visibleMarkers (demoFilterMarkers (emptyTable showAll) [groupA] fo) = []
  /\ ~ In markerA1
         (visibleMarkers (demoFilterMarkers (emptyTable showAll) [groupA] fo)).
Proof.
  intros fo.
  assert (Hnil : visibleMarkers
                   (demoFilterMarkers (emptyTable showAll) [groupA] fo) = [])
    by (vm_compute; reflexivity).
  split; [left; reflexivity|].
  split; [reflexivity|].
  split; [exact Hnil|].
  rewrite Hnil. intros [].
Qed.

(** The table widget reports row 0 as focused, and [getFocus] answers with
    the empty list. *)
Lemma getFocus_ignores_the_focused_row :
  WorkbenchTable.getFocus (table focusedTable) = [0%nat]
  /\ getFocus_passthrough focusedTable = [Some markerB1]
  /\ getFocus focusedTable = []
  /\ getFocus focusedTable <> getFocus_passthrough focusedTable.
Proof.
  split; [reflexivity|].
  split; [reflexivity|].
  split; [reflexivity|].
  discriminate.
Qed.

(** C5, at a group the dataset does not hold. The dataset holds groups A and
    B, and [update] is handed group C, a third object: [indexOf] answers
    [-1], the splice overwrites the last slot, and the marker of the
    untouched group B is gone from the rows. *)
Theorem update_unknown_group_drops_last_group :
  let this := demoReset (emptyTable showAll) [groupA; groupB] in
  let after := demoUpdate this [groupC] in
  Array_indexOf same_object (resourceMarkers this) groupC = -1
  /\ visibleMarkers this = [markerA2; markerB1; markerA1]
  /\ resourceMarkers after = [groupA; groupC]
  /\ visibleMarkers after = [markerA2; markerA1; markerC1]
  /\ ~ In markerB1 (visibleMarkers after).
Proof.
  intros this after.
  assert (Hafter : visibleMarkers after = [markerA2; markerA1; markerC1])
    by (vm_compute; reflexivity).
  split; [reflexivity|].
  split; [vm_compute; reflexivity|].
  split; [vm_compute; reflexivity|].
  split; [exact Hafter|].
  rewrite Hafter.
  intros [H|[H|[H|[]]]]; discriminate H.
Qed.

(** ** Further runs in the concrete workbench *)

(** Errors only and the text "foo": "missing foo" passes and is shown. *)
Lemma passing_markers_are_visible_witness :
  let this :=
    emptyTable
      (mkFilter true false false matchNone matchNone (Some "foo") false) in
  In markerA2 (allMarkers [groupA; groupB])
  /\ demoPasses (filterOptions this) markerA2
  /\ In markerA2 (visibleMarkers (demoReset this [groupA; groupB])).
Proof.
  intros this.
  assert (Hm : In markerA2 (allMarkers [groupA; groupB]))
    by (right; left; reflexivity).
  assert (Hp : demoPasses (filterOptions this) markerA2).
  { split; [intros [H|H]; discriminate H|].
    split; [reflexivity|].
    right. split; [left; split; reflexivity|].
    intros text Ht _. injection Ht as <-.
    left. split; [|reflexivity].
    exists [ {| start := 8; end_ := 11 |} ].
    right; right; right; left. reflexivity. }
  split; [exact Hm|]. split; [exact Hp|].
  exact (passing_markers_are_visible demoSchemas demoSeverity demoFilters
           demoLabelService this [groupA; groupB] markerA2 Hm Hp).
Defined.

(** One group that has no markers. *)
Lemma empty_dataset_shows_nothing_witness :
  let bare :=
    {| ResourceMarkers.oid := 4; ResourceMarkers.id := "/src/d.ts";
       ResourceMarkers.resource := fileUri "/src/d.ts";
       ResourceMarkers.markers := [] |} in
  allMarkers [bare] = []
  /\ WorkbenchTable.rows
       (table (demoFilterMarkers focusedTable [bare] showAll)) = []
  /\ getVisibleItemCount (demoFilterMarkers focusedTable [bare] showAll)
     = 0%nat.
Proof.
  intros bare.
  assert (H : allMarkers [bare] = []) by reflexivity.
  split; [exact H|].
  exact (empty_dataset_shows_nothing demoSchemas demoSeverity demoFilters
           demoLabelService focusedTable [bare] showAll H).
Defined.

(** Group B is an object of the dataset that holds groups A and B. *)
Lemma update_known_is_reset_witness :
  let this := demoReset (emptyTable showAll) [groupA; groupB] in
  (forall g, In g [groupB] -> In g (resourceMarkers this))
  /\ (forall a b,
         In a (resourceMarkers this) -> In b [groupB] ->
         same_object a b = true -> a = b)
  /\ resourceMarkers (demoUpdate this [groupB]) = resourceMarkers this
  /\ demoUpdate this [groupB] = demoReset this (resourceMarkers this).
Proof.
  intros this.
  assert (Hknown : forall g, In g [groupB] -> In g (resourceMarkers this)).
  { intros g [<-|[]]. right. left. reflexivity. }
  assert (Hobj : forall a b,
             In a (resourceMarkers this) -> In b [groupB] ->
             same_object a b = true -> a = b).
  { intros a b [<-|[<-|[]]] [<-|[]] H; [discriminate H|reflexivity]. }
  split; [exact Hknown|]. split; [exact Hobj|].
  exact (update_known_is_reset demoSchemas demoSeverity demoFilters
           demoLabelService this [groupB] Hknown Hobj).
Defined.


(** Groups A and B handed to a table that shows nothing yet: B is kept. *)
Lemma update_on_empty_dataset_keeps_last_witness :
  let this := emptyTable showAll in
  resourceMarkers this = []
  /\ resourceMarkers (demoUpdate this [groupA; groupB]) = [groupB]
  /\ demoUpdate this [groupA; groupB] = demoReset this [groupB].
Proof.
  intros this.
  assert (He : resourceMarkers this = []) by reflexivity.
  split; [exact He|].
  exact (update_on_empty_dataset_keeps_last demoSchemas demoSeverity
           demoFilters demoLabelService this groupA [groupB] He).
Defined.

(** The warning of group A is shown for its toggle. *)
Lemma shown_without_include_has_enabled_severity_witness :
  let this := emptyTable showAll in
  In markerA1 (visibleMarkers (demoReset this [groupA]))
  /\ included (filterOptions this) markerA1 = false
  /\ ((FilterOptions.showErrors (filterOptions this) = true
       /\ IMarker.severity (Marker.marker markerA1)
          = MarkerSeverity.Error demoSeverity)
      \/ (FilterOptions.showWarnings (filterOptions this) = true
          /\ IMarker.severity (Marker.marker markerA1)
             = MarkerSeverity.Warning demoSeverity)
      \/ (FilterOptions.showInfos (filterOptions this) = true
          /\ IMarker.severity (Marker.marker markerA1)
             = MarkerSeverity.Info demoSeverity)).
Proof.
  intros this.
  assert (Hv : visibleMarkers (demoReset this [groupA])
               = [markerA2; markerA1]) by (vm_compute; reflexivity).
  assert (Hin : In markerA1 (visibleMarkers (demoReset this [groupA])))
    by (rewrite Hv; right; left; reflexivity).
  assert (Hi : included (filterOptions this) markerA1 = false)
    by reflexivity.
  split; [exact Hin|]. split; [exact Hi|].
  exact (shown_without_include_has_enabled_severity demoSchemas demoSeverity
           demoFilters demoLabelService this [groupA] markerA1 Hin Hi).
Defined.

(** From errors only to all severities: the error row stays. *)
Lemma widening_severities_keeps_rows_witness :
  let fo := mkFilter true false false matchNone matchNone None false in
  widensSeverities fo showAll
  /\ In (plain markerA2)
       (WorkbenchTable.rows
          (table (demoFilterMarkers (emptyTable showAll) [groupA] fo)))
  /\ In (plain markerA2)
       (WorkbenchTable.rows
          (table (demoFilterMarkers (emptyTable showAll) [groupA] showAll))).
Proof.
  intros fo.
  assert (Hw : widensSeverities fo showAll).
  { repeat split; intros; reflexivity. }
  assert (Hin : In (plain markerA2)
                  (WorkbenchTable.rows
                     (table (demoFilterMarkers (emptyTable showAll)
                               [groupA] fo))))
    by (vm_compute; left; reflexivity).
  split; [exact Hw|]. split; [exact Hin|].
  exact (widening_severities_keeps_rows demoSchemas demoSeverity demoFilters
           demoLabelService (emptyTable showAll) [groupA] fo showAll
           (plain markerA2) Hw Hin).
Defined.

(** The negated text "foo": "missing bar" is shown, without spans. *)
Lemma negated_filter_gives_no_spans_witness :
  let this :=
    emptyTable (mkFilter true true true matchNone matchNone (Some "foo") true)
  in
  FilterOptions.negate (FilterOptions.textFilter (filterOptions this)) = true
  /\ In (plain markerB1)
       (WorkbenchTable.rows (table (demoReset this [groupA; groupB])))
  /\ noSpans (plain markerB1).
Proof.
  intros this.
  assert (Hn : FilterOptions.negate
                 (FilterOptions.textFilter (filterOptions this)) = true)
    by reflexivity.
  assert (Hin : In (plain markerB1)
                  (WorkbenchTable.rows
                     (table (demoReset this [groupA; groupB]))))
    by (vm_compute; left; reflexivity).
  split; [exact Hn|]. split; [exact Hin|].
  exact (negated_filter_gives_no_spans demoSchemas demoSeverity demoFilters
           demoLabelService this [groupA; groupB] (plain markerB1) Hn Hin).
Defined.

(** The text "foo": the row of "missing foo" has the span of its message. *)
Lemma text_filter_rows_have_spans_witness :
  let this :=
    emptyTable
      (mkFilter true true true matchNone matchNone (Some "foo") false) in
  let row :=
    MarkerTableItem.new markerA2 None None
      (Some [ {| start := 8; end_ := 11 |} ]) None None in
  FilterOptions.text (FilterOptions.textFilter (filterOptions this))
  = Some "foo"
  /\ "foo" <> EmptyString
  /\ FilterOptions.negate (FilterOptions.textFilter (filterOptions this))
     = false
  /\ In row (WorkbenchTable.rows (table (demoReset this [groupA; groupB])))
  /\ included (filterOptions this) (MarkerTableItem.toMarker row) = false
  /\ ~ noSpans row.
Proof.
  intros this row.
  assert (Ht : FilterOptions.text
                 (FilterOptions.textFilter (filterOptions this))
               = Some "foo") by reflexivity.
  assert (Hne : "foo" <> EmptyString) by discriminate.
  assert (Hn : FilterOptions.negate
                 (FilterOptions.textFilter (filterOptions this)) = false)
    by reflexivity.
  assert (Hin : In row (WorkbenchTable.rows
                          (table (demoReset this [groupA; groupB]))))
    by (vm_compute; left; reflexivity).
  assert (Hi : included (filterOptions this) (MarkerTableItem.toMarker row)
               = false) by reflexivity.
  repeat (split; [assumption|]).
  exact (text_filter_rows_have_spans demoSchemas demoSeverity demoFilters
           demoLabelService this [groupA; groupB] "foo" row
           Ht Hne Hn Hin Hi).
Defined.

(** The message label of that row shows "missing foo" with the span at
    which "foo" is found in it. *)
Lemma highlights_fit_their_labels_witness :
  let this :=
    emptyTable
      (mkFilter true true true matchNone matchNone (Some "foo") false) in
  let row :=
    MarkerTableItem.new markerA2 None None
      (Some [ {| start := 8; end_ := 11 |} ]) None None in
  let u :=
    {| label := messageLabel; label_text := "missing foo";
       highlights := Some [ {| start := 8; end_ := 11 |} ] |} in
  FilterOptions.text (FilterOptions.textFilter (filterOptions this))
  = Some "foo"
  /\ In row (WorkbenchTable.rows (table (demoReset this [groupA; groupB])))
  /\ In u (renderRow demoLabelService demoPosition row)
  /\ highlightsComputedOn demoFilters "foo" u.
Proof.
  intros this row u.
  assert (Ht : FilterOptions.text
                 (FilterOptions.textFilter (filterOptions this))
               = Some "foo") by reflexivity.
  assert (Hin : In row (WorkbenchTable.rows
                          (table (demoReset this [groupA; groupB]))))
    by (vm_compute; left; reflexivity).
  assert (Hu : In u (renderRow demoLabelService demoPosition row))
    by (left; reflexivity).
  repeat (split; [assumption|]).
  exact (highlights_fit_their_labels demoSchemas demoSeverity demoFilters
           demoLabelService demoPosition this [groupA; groupB] "foo" row u
           Ht Hin Hu).
Defined.

(** An error group before an info group: the rows keep that order. *)
Lemma sorted_items_stay_in_order_witness :
  let this := emptyTable showAll in
  StronglySorted (fun a b => bySeverity demoSeverity a b <= 0)
    (reset_items demoSchemas demoSeverity demoFilters demoLabelService
       (filterOptions this) [groupB; groupC])
  /\ WorkbenchTable.rows (table (demoReset this [groupB; groupC]))
     = [plain markerB1; plain markerC1].
Proof.
  intros this.
  assert (Hitems : reset_items demoSchemas demoSeverity demoFilters
                     demoLabelService (filterOptions this) [groupB; groupC]
                   = [plain markerB1; plain markerC1])
    by (vm_compute; reflexivity).
  assert (Hs : StronglySorted (fun a b => bySeverity demoSeverity a b <= 0)
                 (reset_items demoSchemas demoSeverity demoFilters
                    demoLabelService (filterOptions this) [groupB; groupC])).
  { rewrite Hitems. repeat constructor. unfold bySeverity. cbn. lia. }
  split; [exact Hs|].
  rewrite <- Hitems.
  exact (sorted_items_stay_in_order demoSchemas demoSeverity demoFilters
           demoLabelService this [groupB; groupC] Hs).
Defined.

(** Group C is no object of the dataset that holds groups A and B. *)
Lemma update_unknown_replaces_last_witness :
  let this := demoReset (emptyTable showAll) [groupA; groupB] in
  (forall y, In y (resourceMarkers this) -> same_object y groupC = false)
  /\ resourceMarkers (demoUpdate this [groupC]) = [groupA; groupC]
  /\ demoUpdate this [groupC] = demoReset this [groupA; groupC].
Proof.
  intros this.
  assert (Hu : forall y,
             In y (resourceMarkers this) -> same_object y groupC = false).
  { intros y [<-|[<-|[]]]; reflexivity. }
  split; [exact Hu|].
  exact (update_unknown_replaces_last demoSchemas demoSeverity demoFilters
           demoLabelService this groupC Hu).
Defined.
